(** * tikva.core.config: the persistent configuration of the application

    A shallow embedding of [tikva/core/config.py]: the key normalizer
    [rename_keys_for_config], the pydantic model [Configuration], its loader
    [Configuration.from_yaml] and its saver [Configuration.save_user_settings].

    Python objects are a first-order type [value]; a [dict] is the list of its
    items in insertion order; exceptions are an explicit [result]; the file
    system and the loguru sink are threaded through as a [world]. *)

From Stdlib Require Import ZArith Ascii String Floats.SpecFloat.
From stdpp Require Import base option list strings gmap.

Open Scope string_scope.

#[local] Set Warnings "-register-all".

(** ** Python values *)

(** The objects a configuration mapping holds: what [yaml.safe_load] builds
    from plain YAML (null, booleans, integers, floats, strings, sequences,
    mappings) and, of the further objects a caller can put in a settings
    [dict], the tuple.  A float is its IEEE 754 reading.  Bytes, dates and
    sets are not modelled. *)
Inductive value : Type :=
| VNone
| VBool (b : bool)
| VInt (n : Z)
| VFloat (x : spec_float)
| VStr (s : string)
| VList (items : list value)
| VTuple (items : list value)
| VDict (items : list (value * value)).

(** A [dict] as [dict.items()] lists it, oldest key first. *)
Abbreviation pydict := (list (value * value)).

(** A [dict] all of whose keys are [str]. *)
Abbreviation strdict := (list (string * value)).

(** The exceptions this module can see. *)
Inductive exn : Type :=
| AttributeError (attr : string)
| ValidationError (loc : list string).

Inductive result (A : Type) : Type :=
| Ok (a : A)
| Raise (e : exn).
Arguments Ok {A} a.
Arguments Raise {A} e.

Definition bind {A B : Type} (r : result A) (k : A -> result B) : result B :=
  match r with
  | Ok a => k a
  | Raise e => Raise e
  end.

Declare Scope py_scope.
Delimit Scope py_scope with py.
Notation "'let!' x ':=' r 'in' k" := (bind r (fun x => k))
  (at level 10, x pattern, r at level 100, k at level 200) : py_scope.
Open Scope py_scope.

(** ** Strings *)

(** [str.upper] and [str.lower] as they act on ASCII text, which is what the
    keys and literals of the configuration are: a letter changes case and
    every other character stays.  On text outside ASCII Python's methods do
    more (a character may change or become two); that is not modelled, and
    [is_ascii] marks the text on which these two are exact. *)
Definition ascii_upper (c : ascii) : ascii :=
  let n := nat_of_ascii c in
  if (97 <=? n)%nat && (n <=? 122)%nat then ascii_of_nat (n - 32) else c.

Definition ascii_lower (c : ascii) : ascii :=
  let n := nat_of_ascii c in
  if (65 <=? n)%nat && (n <=? 90)%nat then ascii_of_nat (n + 32) else c.

Fixpoint str_map (f : ascii -> ascii) (s : string) : string :=
  match s with
  | EmptyString => EmptyString
  | String c r => String (f c) (str_map f r)
  end.

Definition upper : string -> string := str_map ascii_upper.
Definition lower : string -> string := str_map ascii_lower.

(** [s.isascii()]. *)
Fixpoint is_ascii (s : string) : bool :=
  match s with
  | EmptyString => true
  | String c r => (nat_of_ascii c <? 128)%nat && is_ascii r
  end.

(** [key.startswith(p)]. *)
Definition startswith (key p : string) : bool := String.prefix p key.

(** ** Dictionaries *)

(** [d[k]] lookup, [None] when the key is missing. *)
Fixpoint dict_get (k : string) (d : strdict) : option value :=
  match d with
  | [] => None
  | (k', v) :: r => if String.eqb k' k then Some v else dict_get k r
  end.

(** [d[k] = v]: an existing key keeps its place and takes the new value, a
    new key goes last. *)
Fixpoint dict_setitem (k : string) (v : value) (d : strdict) : strdict :=
  match d with
  | [] => [(k, v)]
  | (k', v') :: r =>
      if String.eqb k' k then (k', v) :: r else (k', v') :: dict_setitem k v r
  end.

(** The items of a [str]-keyed dict, the keys as Python objects. *)
Definition str_items (d : strdict) : pydict :=
  map (fun kv => (VStr kv.1, kv.2)) d.

(** A [str]-keyed dict as a Python object. *)
Definition dict_value (d : strdict) : value := VDict (str_items d).

(** ** The key normalizer *)

(** The key expression of the comprehension of [rename_keys_for_config]:
    [f"DEFAULT_{key.upper()}" if not key.startswith("DEFAULT_") else key]. *)
Definition renamed_key (key : string) : string :=
  if negb (startswith key "DEFAULT_") then "DEFAULT_" ++ upper key else key.

(** [rename_keys_for_config]: the dict comprehension inserts the items one by
    one under their new keys; a key that is not a [str] has no [startswith]. *)
Definition rename_keys_for_config (config_dict : pydict) : result strdict :=
  fold_left
    (fun acc item =>
       let! d := acc in
       match item.1 with
       | VStr key => Ok (dict_setitem (renamed_key key) item.2 d)
       | _ => Raise (AttributeError "startswith")
       end)
    config_dict (Ok []).

(** The same comprehension read on a dict whose keys are all [str]. *)
Definition rename_items (items : strdict) : strdict :=
  fold_left (fun d kv => dict_setitem (renamed_key kv.1) kv.2 d) items [].

(** A dict as the normalizer leaves it: every key carries the prefix. *)
Definition normalized (d : strdict) : Prop :=
  NoDup d.*1 /\ Forall (fun k => startswith k "DEFAULT_" = true) d.*1.

(** [s.replace("DEFAULT_", "")]: the text is read from the left; where
    "DEFAULT_" starts its eight characters are dropped ([skip] counts those
    still to drop) and reading goes on behind them. *)
Fixpoint replace_default (skip : nat) (s : string) : string :=
  match s with
  | EmptyString => EmptyString
  | String c r =>
      match skip with
      | S n => replace_default n r
      | O =>
          if startswith s "DEFAULT_" then replace_default 7 r
          else String c (replace_default 0 r)
      end
  end.

(** The key expression of the comprehension of [remove_default_prefix]:
    [key.replace("DEFAULT_", "").lower()]. *)
Definition external_key (key : string) : string :=
  lower (replace_default 0 key).

(** [remove_default_prefix]: the same kind of comprehension as
    [rename_keys_for_config]; a key that is not a [str] has no [replace]. *)
Definition remove_default_prefix (config_dict : pydict) : result strdict :=
  fold_left
    (fun acc item =>
       let! d := acc in
       match item.1 with
       | VStr key => Ok (dict_setitem (external_key key) item.2 d)
       | _ => Raise (AttributeError "replace")
       end)
    config_dict (Ok []).

(** The shape the two comprehensions share: the items are inserted one by one
    under the key [g] gives; [attr] is the [str] method a key must have. *)
Definition comprehension (attr : string) (g : string -> string)
    (config_dict : pydict) (acc : result strdict) : result strdict :=
  fold_left
    (fun acc item =>
       let! d := acc in
       match item.1 with
       | VStr key => Ok (dict_setitem (g key) item.2 d)
       | _ => Raise (AttributeError attr)
       end)
    config_dict acc.

(** [needle in hay] on two [str]. *)
Fixpoint contains (needle hay : string) : bool :=
  match hay with
  | EmptyString => String.prefix needle EmptyString
  | String _ r => String.prefix needle hay || contains needle r
  end.

(** Whether a character is one of the ASCII capitals. *)
Definition is_upper (c : ascii) : bool :=
  let n := nat_of_ascii c in (65 <=? n)%nat && (n <=? 90)%nat.

(** Whether some character of the text satisfies [p]. *)
Fixpoint str_exists (p : ascii -> bool) (s : string) : bool :=
  match s with
  | EmptyString => false
  | String c r => p c || str_exists p r
  end.

(** Whether a key is a [str]. *)
Definition is_str (v : value) : bool :=
  match v with VStr _ => true | _ => false end.

(** ** pydantic: validation of one value against a type annotation

    [Configuration] is a [BaseModel] with no field constraints and the default
    (lax) mode: a value of another type is accepted when it converts to the
    annotated type without loss. *)

Inductive annotation : Type :=
| TBool
| TInt
| TStr
| TLiteral (choices : list string)
| TList (item : annotation)
| TOptional (inner : annotation).

Definition is_space (c : ascii) : bool :=
  let n := nat_of_ascii c in
  (n =? 32)%nat || ((9 <=? n)%nat && (n <=? 13)%nat).

Fixpoint lstrip (s : string) : string :=
  match s with
  | EmptyString => EmptyString
  | String c r => if is_space c then lstrip r else s
  end.

Fixpoint rstrip (s : string) : string :=
  match s with
  | EmptyString => EmptyString
  | String c r =>
      match rstrip r with
      | EmptyString => if is_space c then EmptyString else String c EmptyString
      | r' => String c r'
      end
  end.

Definition strip (s : string) : string := lstrip (rstrip s).

Definition digit_of (c : ascii) : option Z :=
  let n := nat_of_ascii c in
  if (48 <=? n)%nat && (n <=? 57)%nat then Some (Z.of_nat (n - 48)) else None.

Fixpoint decimal (s : string) (acc : Z) : option Z :=
  match s with
  | EmptyString => Some acc
  | String c r =>
      match digit_of c with
      | Some d => decimal r (10 * acc + d)
      | None => None
      end
  end.

(** A [str] read as an [int]: surrounding white space, an optional sign and
    decimal digits.  Only these plain spellings are modelled; what else a
    version of pydantic may read as an integer is refused here, and the
    theorems below are stated through [validate], not through this reading. *)
Definition str_as_int (s : string) : option Z :=
  match strip s with
  | EmptyString => None
  | String "-" (String _ _ as r) => Z.opp <$> decimal r 0
  | String "+" (String _ _ as r) => decimal r 0
  | t => decimal t 0
  end.

(** The integer a finite [float] without fractional part is equal to. *)
Definition float_integral (x : spec_float) : option Z :=
  match x with
  | S754_zero _ => Some 0%Z
  | S754_finite s m e =>
      let sign := if s then (-1)%Z else 1%Z in
      if (0 <=? e)%Z then Some (sign * (Z.pos m * 2 ^ e))%Z
      else if (Z.pos m mod 2 ^ (- e) =? 0)%Z
           then Some (sign * (Z.pos m / 2 ^ (- e)))%Z
           else None
  | S754_infinity _ | S754_nan => None
  end.

(** A [float] read as an [int]: finite, without fractional part and within
    the 64-bit range. *)
Definition float_as_int (x : spec_float) : option Z :=
  match float_integral x with
  | Some n =>
      if (- 2 ^ 63 <? n)%Z && (n <? 2 ^ 63)%Z then Some n else None
  | None => None
  end.

Definition int_as_bool (n : Z) : option bool :=
  if (n =? 0)%Z then Some false else if (n =? 1)%Z then Some true else None.

Definition str_as_bool (s : string) : option bool :=
  let s := lower s in
  if existsb (String.eqb s) ["0"; "off"; "f"; "false"; "n"; "no"] then Some false
  else if existsb (String.eqb s) ["1"; "on"; "t"; "true"; "y"; "yes"] then Some true
  else None.

Definition validate_bool (v : value) : option value :=
  match v with
  | VBool b => Some (VBool b)
  | VInt n => VBool <$> int_as_bool n
  | VFloat x => VBool <$> (float_as_int x ≫= int_as_bool)
  | VStr s => VBool <$> str_as_bool s
  | _ => None
  end.

Definition validate_int (v : value) : option value :=
  match v with
  | VInt n => Some (VInt n)
  | VBool b => Some (VInt (if b then 1 else 0))
  | VFloat x => VInt <$> float_as_int x
  | VStr s => VInt <$> str_as_int s
  | _ => None
  end.

(** The validated value, or [None] when the value is refused. *)
Fixpoint validate (a : annotation) (v : value) : option value :=
  match a with
  | TBool => validate_bool v
  | TInt => validate_int v
  | TStr => match v with VStr s => Some (VStr s) | _ => None end
  | TLiteral choices =>
      match v with
      | VStr s => if existsb (String.eqb s) choices then Some (VStr s) else None
      | _ => None
      end
  | TList item =>
      match v with
      | VList l | VTuple l => VList <$> mapM (validate item) l
      | _ => None
      end
  | TOptional inner =>
      match v with
      | VNone => Some VNone
      | _ => validate inner v
      end
  end.

(** The values a type annotation describes exactly (no conversion needed). *)
Fixpoint has_type (a : annotation) (v : value) : bool :=
  match a, v with
  | TBool, VBool _ => true
  | TInt, VInt _ => true
  | TStr, VStr _ => true
  | TLiteral choices, VStr s => existsb (String.eqb s) choices
  | TList item, VList l => forallb (has_type item) l
  | TOptional _, VNone => true
  | TOptional inner, _ => has_type inner v
  | _, _ => false
  end.

(** ** The model [Configuration] *)

(** The names of [Configuration.model_fields], in declaration order. *)
Module Field.
Inductive t : Type :=
| ENABLE_REALSENSE
| ENABLE_CAMERAS
| MAX_OPENCV_INDEX
| MAIN_CAMERA_ID
| ENABLE_CAN
| MAX_CAN_INTERFACES
| DEFAULT_DATASET_NAME
| DEFAULT_FREQ
| DEFAULT_EPISODE_FORMAT
| DEFAULT_VIDEO_CODEC
| DEFAULT_VIDEO_SIZE
| DEFAULT_TASK_INSTRUCTION
| DEFAULT_CAMERAS_TO_DISABLE
| DEFAULT_CAMERAS_TO_RECORD.

Definition name (f : t) : string :=
  match f with
  | ENABLE_REALSENSE => "ENABLE_REALSENSE"
  | ENABLE_CAMERAS => "ENABLE_CAMERAS"
  | MAX_OPENCV_INDEX => "MAX_OPENCV_INDEX"
  | MAIN_CAMERA_ID => "MAIN_CAMERA_ID"
  | ENABLE_CAN => "ENABLE_CAN"
  | MAX_CAN_INTERFACES => "MAX_CAN_INTERFACES"
  | DEFAULT_DATASET_NAME => "DEFAULT_DATASET_NAME"
  | DEFAULT_FREQ => "DEFAULT_FREQ"
  | DEFAULT_EPISODE_FORMAT => "DEFAULT_EPISODE_FORMAT"
  | DEFAULT_VIDEO_CODEC => "DEFAULT_VIDEO_CODEC"
  | DEFAULT_VIDEO_SIZE => "DEFAULT_VIDEO_SIZE"
  | DEFAULT_TASK_INSTRUCTION => "DEFAULT_TASK_INSTRUCTION"
  | DEFAULT_CAMERAS_TO_DISABLE => "DEFAULT_CAMERAS_TO_DISABLE"
  | DEFAULT_CAMERAS_TO_RECORD => "DEFAULT_CAMERAS_TO_RECORD"
  end.

(** The default written after [=] in the class body. *)
Definition default (f : t) : value :=
  match f with
  | ENABLE_REALSENSE => VBool true
  | ENABLE_CAMERAS => VBool true
  | MAX_OPENCV_INDEX => VInt 10
  | MAIN_CAMERA_ID => VNone
  | ENABLE_CAN => VBool false
  | MAX_CAN_INTERFACES => VInt 4
  | DEFAULT_DATASET_NAME => VStr "example_dataset"
  | DEFAULT_FREQ => VInt 30
  | DEFAULT_EPISODE_FORMAT => VStr "lerobot_v2.1"
  | DEFAULT_VIDEO_CODEC => VStr "avc1"
  | DEFAULT_VIDEO_SIZE => VList [VInt 320; VInt 240]
  | DEFAULT_TASK_INSTRUCTION => VStr "None"
  | DEFAULT_CAMERAS_TO_DISABLE => VNone
  | DEFAULT_CAMERAS_TO_RECORD => VNone
  end.

(** The fields of the camera and robot groups: those declared before the
    recording defaults. *)
Definition outside_recording_defaults (f : t) : bool :=
  match f with
  | ENABLE_REALSENSE | ENABLE_CAMERAS | MAX_OPENCV_INDEX | MAIN_CAMERA_ID
  | ENABLE_CAN | MAX_CAN_INTERFACES => true
  | _ => false
  end.
End Field.

Definition model_fields : list Field.t :=
  [ Field.ENABLE_REALSENSE; Field.ENABLE_CAMERAS; Field.MAX_OPENCV_INDEX;
    Field.MAIN_CAMERA_ID; Field.ENABLE_CAN; Field.MAX_CAN_INTERFACES;
    Field.DEFAULT_DATASET_NAME; Field.DEFAULT_FREQ;
    Field.DEFAULT_EPISODE_FORMAT; Field.DEFAULT_VIDEO_CODEC;
    Field.DEFAULT_VIDEO_SIZE; Field.DEFAULT_TASK_INSTRUCTION;
    Field.DEFAULT_CAMERAS_TO_DISABLE; Field.DEFAULT_CAMERAS_TO_RECORD ].

(** An instance: the attribute of each field. *)
Record Configuration : Type := {
  ENABLE_REALSENSE : value;
  ENABLE_CAMERAS : value;
  MAX_OPENCV_INDEX : value;
  MAIN_CAMERA_ID : value;
  ENABLE_CAN : value;
  MAX_CAN_INTERFACES : value;
  DEFAULT_DATASET_NAME : value;
  DEFAULT_FREQ : value;
  DEFAULT_EPISODE_FORMAT : value;
  DEFAULT_VIDEO_CODEC : value;
  DEFAULT_VIDEO_SIZE : value;
  DEFAULT_TASK_INSTRUCTION : value;
  DEFAULT_CAMERAS_TO_DISABLE : value;
  DEFAULT_CAMERAS_TO_RECORD : value
}.

Definition getattr (c : Configuration) (f : Field.t) : value :=
  match f with
  | Field.ENABLE_REALSENSE => ENABLE_REALSENSE c
  | Field.ENABLE_CAMERAS => ENABLE_CAMERAS c
  | Field.MAX_OPENCV_INDEX => MAX_OPENCV_INDEX c
  | Field.MAIN_CAMERA_ID => MAIN_CAMERA_ID c
  | Field.ENABLE_CAN => ENABLE_CAN c
  | Field.MAX_CAN_INTERFACES => MAX_CAN_INTERFACES c
  | Field.DEFAULT_DATASET_NAME => DEFAULT_DATASET_NAME c
  | Field.DEFAULT_FREQ => DEFAULT_FREQ c
  | Field.DEFAULT_EPISODE_FORMAT => DEFAULT_EPISODE_FORMAT c
  | Field.DEFAULT_VIDEO_CODEC => DEFAULT_VIDEO_CODEC c
  | Field.DEFAULT_VIDEO_SIZE => DEFAULT_VIDEO_SIZE c
  | Field.DEFAULT_TASK_INSTRUCTION => DEFAULT_TASK_INSTRUCTION c
  | Field.DEFAULT_CAMERAS_TO_DISABLE => DEFAULT_CAMERAS_TO_DISABLE c
  | Field.DEFAULT_CAMERAS_TO_RECORD => DEFAULT_CAMERAS_TO_RECORD c
  end.

(** The instance whose attributes are given by [g]. *)
Definition instance (g : Field.t -> value) : Configuration := {|
  ENABLE_REALSENSE := g Field.ENABLE_REALSENSE;
  ENABLE_CAMERAS := g Field.ENABLE_CAMERAS;
  MAX_OPENCV_INDEX := g Field.MAX_OPENCV_INDEX;
  MAIN_CAMERA_ID := g Field.MAIN_CAMERA_ID;
  ENABLE_CAN := g Field.ENABLE_CAN;
  MAX_CAN_INTERFACES := g Field.MAX_CAN_INTERFACES;
  DEFAULT_DATASET_NAME := g Field.DEFAULT_DATASET_NAME;
  DEFAULT_FREQ := g Field.DEFAULT_FREQ;
  DEFAULT_EPISODE_FORMAT := g Field.DEFAULT_EPISODE_FORMAT;
  DEFAULT_VIDEO_CODEC := g Field.DEFAULT_VIDEO_CODEC;
  DEFAULT_VIDEO_SIZE := g Field.DEFAULT_VIDEO_SIZE;
  DEFAULT_TASK_INSTRUCTION := g Field.DEFAULT_TASK_INSTRUCTION;
  DEFAULT_CAMERAS_TO_DISABLE := g Field.DEFAULT_CAMERAS_TO_DISABLE;
  DEFAULT_CAMERAS_TO_RECORD := g Field.DEFAULT_CAMERAS_TO_RECORD
|}.

(** [setattr(c, f, v)]: plain attribute assignment (the model does not set
    [validate_assignment]). *)
Definition setattr (c : Configuration) (f : Field.t) (v : value) : Configuration :=
  instance (fun f' =>
    match f, f' with
    | Field.ENABLE_REALSENSE, Field.ENABLE_REALSENSE
    | Field.ENABLE_CAMERAS, Field.ENABLE_CAMERAS
    | Field.MAX_OPENCV_INDEX, Field.MAX_OPENCV_INDEX
    | Field.MAIN_CAMERA_ID, Field.MAIN_CAMERA_ID
    | Field.ENABLE_CAN, Field.ENABLE_CAN
    | Field.MAX_CAN_INTERFACES, Field.MAX_CAN_INTERFACES
    | Field.DEFAULT_DATASET_NAME, Field.DEFAULT_DATASET_NAME
    | Field.DEFAULT_FREQ, Field.DEFAULT_FREQ
    | Field.DEFAULT_EPISODE_FORMAT, Field.DEFAULT_EPISODE_FORMAT
    | Field.DEFAULT_VIDEO_CODEC, Field.DEFAULT_VIDEO_CODEC
    | Field.DEFAULT_VIDEO_SIZE, Field.DEFAULT_VIDEO_SIZE
    | Field.DEFAULT_TASK_INSTRUCTION, Field.DEFAULT_TASK_INSTRUCTION
    | Field.DEFAULT_CAMERAS_TO_DISABLE, Field.DEFAULT_CAMERAS_TO_DISABLE
    | Field.DEFAULT_CAMERAS_TO_RECORD, Field.DEFAULT_CAMERAS_TO_RECORD => v
    | _, _ => getattr c f'
    end).

(** ** The world outside the process *)

(** What a file holds: a text, or the text [yaml.dump] writes for an object. *)
Inductive contents : Type :=
| Text (s : string)
| Dump (v : value).

Inductive yaml_result : Type :=
| YAMLError (message : string)
| Parsed (v : value).

(** What [logger.error] is called with. *)
Inductive log_entry : Type :=
| Error_loading (message : string)
| Error_saving (e : exn).

(** The files by path, and the messages logged so far (newest first). *)
Record world : Type := {
  files : gmap string contents;
  log : list log_entry
}.

(** [open(path, "w")] followed by one write, in a directory that exists and
    can be written (as the per-user directory that [get_home_app_path]
    creates): the file holds [c] and nothing of what it held before.  A
    failing [open] is not modelled. *)
Definition write (path : string) (c : contents) (w : world) : world :=
  {| files := <[path := c]> (files w); log := log w |}.

Definition logger_error (e : log_entry) (w : world) : world :=
  {| files := files w; log := e :: log w |}.

(** ** [tikva.core.utils.is_can_plugged] *)

(** How [subprocess.run(..., check=True, timeout=3)] ends: the process exits
    with status 0 and its captured output, it exits with another status
    ([CalledProcessError]), the command does not exist ([FileNotFoundError]),
    or anything else is raised (a timeout, a permission error). *)
Inductive run_outcome : Type :=
| Completed (stdout : option string)
| CalledProcessError (returncode : Z)
| FileNotFoundError
| OtherError.

(** What [is_can_plugged] passes to [logger.warning]. *)
Inductive can_warning : Type :=
| Failed_to_check (returncode : Z)
| Command_not_found
| Unexpected_error.

(** What the [try] block of [is_can_plugged] raises. *)
Inductive can_raised : Type :=
| Raised_by_run (o : run_outcome)
| Unsupported_platform
| No_stdout.

(** The [try] block: the command of the platform is run and its output is
    searched; [platform] is [sys.platform] and [run] is [subprocess.run]. *)
Definition can_probe (platform : string) (run : list string -> run_outcome)
    (interface : string) : can_raised + bool :=
  if String.eqb platform "linux" then
    match run ["ip"; "link"; "show"; interface] with
    | Completed (Some out) => inr (negb (contains "does not exist" (lower out)))
    | Completed None => inl No_stdout
    | o => inl (Raised_by_run o)
    end
  else if String.eqb platform "darwin" then
    match run ["ifconfig"; interface] with
    | Completed (Some out) => inr (negb (contains "does not exist" (lower out)))
    | Completed None => inl No_stdout
    | o => inl (Raised_by_run o)
    end
  else if String.eqb platform "win32" then
    match run ["ipconfig"; "/all"] with
    | Completed (Some out) => inr (contains interface (lower out))
    | Completed None => inr false
    | o => inl (Raised_by_run o)
    end
  else inl Unsupported_platform.

(** [is_can_plugged(interface)] with its three [except] clauses: the answer
    and the warnings logged. *)
Definition is_can_plugged (platform : string) (run : list string -> run_outcome)
    (interface : string) : bool * list can_warning :=
  match can_probe platform run interface with
  | inr answer => (answer, [])
  | inl (Raised_by_run (CalledProcessError returncode)) =>
      if (returncode =? 1)%Z then (false, [])
      else (false, [Failed_to_check returncode])
  | inl (Raised_by_run FileNotFoundError) => (false, [Command_not_found])
  | inl _ => (false, [Unexpected_error])
  end.

(** What is known of the machine and of the libraries the module imports. *)
Section Config.

(** The values of the [Literal] [tikva.types.VideoCodecs]; the module
    [tikva.types] is not among the sources, so the list is left open. *)
Variable VideoCodecs : list string.

(** [str(Path.home())]. *)
Variable home : string.

(** The annotation of each field. *)
Definition annotation_of (f : Field.t) : annotation :=
  match f with
  | Field.ENABLE_REALSENSE => TBool
  | Field.ENABLE_CAMERAS => TBool
  | Field.MAX_OPENCV_INDEX => TInt
  | Field.MAIN_CAMERA_ID => TOptional TInt
  | Field.ENABLE_CAN => TBool
  | Field.MAX_CAN_INTERFACES => TInt
  | Field.DEFAULT_DATASET_NAME => TStr
  | Field.DEFAULT_FREQ => TInt
  | Field.DEFAULT_EPISODE_FORMAT => TLiteral ["lerobot_v2.1"; "lerobot_v2"; "json"]
  | Field.DEFAULT_VIDEO_CODEC => TLiteral VideoCodecs
  | Field.DEFAULT_VIDEO_SIZE => TList TInt
  | Field.DEFAULT_TASK_INSTRUCTION => TStr
  | Field.DEFAULT_CAMERAS_TO_DISABLE => TOptional (TList TInt)
  | Field.DEFAULT_CAMERAS_TO_RECORD => TOptional (TList TInt)
  end.

(** One field of the model: the value under the field's own name is
    validated, a missing key takes the default (which is not validated). *)
Definition validate_field (data : strdict) (f : Field.t) : option value :=
  match dict_get (Field.name f) data with
  | Some v => validate (annotation_of f) v
  | None => Some (Field.default f)
  end.

(** The fields whose value is refused, in declaration order. *)
Definition invalid_fields (data : strdict) : list Field.t :=
  filter (fun f => validate_field data f = None) model_fields.

(** The constructor called with [data] as keyword arguments: every field is
    validated, keys that name no field are ignored ([extra = "ignore"]), and
    one [ValidationError] lists all refused fields. *)
Definition Configuration_init (data : strdict) : result Configuration :=
  match invalid_fields data with
  | [] => Ok (instance (fun f => default VNone (validate_field data f)))
  | bad => Raise (ValidationError (Field.name <$> bad))
  end.

(** [Configuration.model_validate(obj)] on a dict. *)
Definition model_validate (obj : strdict) : result Configuration :=
  Configuration_init obj.

(** *** Files, YAML and the log *)

(** [yaml.safe_load] of a text: the parsed object, or a [yaml.YAMLError]. *)
Variable safe_load_text : string -> yaml_result.

(** [yaml.safe_load] of the text [yaml.dump] wrote for an object: the two
    come from one library but are not inverse on every object, so what is
    read back is left open here and assumed where a theorem needs it. *)
Variable safe_load_dump : value -> yaml_result.

(** [yaml.safe_load(file)]. *)
Definition safe_load (c : contents) : yaml_result :=
  match c with
  | Text s => safe_load_text s
  | Dump v => safe_load_dump v
  end.

(** [YAML_CONFIG_PATH = str(get_home_app_path() / "config.yaml")]. *)
Definition YAML_CONFIG_PATH : string := home ++ "/.tikva/config.yaml".

(** *** The loader *)

(** [Configuration.from_yaml(config_path)]. *)
Definition from_yaml (config_path : option string) (w : world)
  : world * result Configuration :=
  let config_path := default YAML_CONFIG_PATH config_path in
  match files w !! config_path with
  | None =>
      (* the file is created with nothing in it *)
      (write config_path (Text EmptyString) w, Configuration_init [])
  | Some c =>
      let '(w, config) :=
        match safe_load c with
        | YAMLError e => (logger_error (Error_loading e) w, VNone)
        | Parsed config => (w, config)
        end in
      let config := match config with VDict items => items | _ => [] end in
      (w, let! config := rename_keys_for_config config in
          Configuration_init config)
  end.

(** *** The saver *)

(** [self.save_user_settings(user_settings)]: the state of [self] is passed
    in and out next to the world. *)
Definition save_user_settings (self : Configuration) (user_settings : pydict)
    (w : world) : world * Configuration * result unit :=
  match (let! user_settings := rename_keys_for_config user_settings in
         let! new_config := model_validate user_settings in
         Ok (user_settings, new_config)) with
  | Raise e => (logger_error (Error_saving e) w, self, Ok ())
  | Ok (user_settings, new_config) =>
      let w := write YAML_CONFIG_PATH (Dump (dict_value user_settings)) w in
      let self :=
        fold_left (fun self field => setattr self field (getattr new_config field))
          model_fields self in
      (w, self, Ok ())
  end.

(** The module-level [config = Configuration.from_yaml()]. *)
Definition config (w : world) : world * result Configuration :=
  from_yaml None w.



(** Whether a key names a field of the model. *)
Definition recognized (k : string) : bool :=
  bool_decide (k ∈ Field.name <$> model_fields).

(** The restriction of a mapping to the keys the model knows. *)
Definition restrict (d : strdict) : strdict :=
  filter (fun kv => recognized kv.1 = true) d.

(** ** Inputs used below *)

(** An instance holding every default. *)
Definition defaults : Configuration := instance Field.default.

(** No file, nothing logged. *)
Definition empty_world : world := {| files := ∅; log := [] |}.

(** The bare settings [{"freq": "60"}], [{"freq": 60}] and
    [{"episode_format": "xml"}]. *)
Definition freq_as_text : pydict := [(VStr "freq", VStr "60")].
Definition freq_60 : pydict := [(VStr "freq", VInt 60)].
Definition episode_format_xml : pydict := [(VStr "episode_format", VStr "xml")].

(** The objects made of plain YAML values only: no tuple anywhere. *)
Fixpoint yaml_plain (v : value) : bool :=
  match v with
  | VTuple _ => false
  | VList items => forallb yaml_plain items
  | VDict items => forallb (fun kv => yaml_plain kv.1 && yaml_plain kv.2) items
  | _ => true
  end.

(** PyYAML on its own dumps, for the examples: an object of plain values is
    read back as it was dumped; a tuple is dumped under a Python tag
    ([!!python/tuple]) for which [safe_load] has no constructor. *)
Definition reads_plain_dumps (v : value) : yaml_result :=
  if yaml_plain v then Parsed v
  else YAMLError "could not determine a constructor for the tag".

(** The bare settings [{"video_size": (640, 480)}], the size a tuple. *)
Definition video_size_tuple : pydict :=
  [(VStr "video_size", VTuple [VInt 640; VInt 480])].

(** A machine for the examples: one codec, a home directory, and a reader
    that takes every text for an empty document. *)
Definition avc1_only : list string := ["avc1"].
Definition user_home : string := "/home/user".
Definition reads_nothing (text : string) : yaml_result := Parsed VNone.

(** A reader that finds every text malformed, and a world whose only file is
    some text. *)
Definition rejects_everything (text : string) : yaml_result :=
  YAMLError "malformed".
Definition world_with_text : world :=
  {| files := {[ "/tmp/config.yaml" := Text "freq: [" ]}; log := [] |}.

(** An instance with frequency 60 and task instruction "custom", and the bare
    settings [{"episode_export_format": "xml"}]. *)
Definition customized : Configuration :=
  setattr (setattr defaults Field.DEFAULT_FREQ (VInt 60))
    Field.DEFAULT_TASK_INSTRUCTION (VStr "custom").
Definition export_format_xml : pydict :=
  [(VStr "episode_export_format", VStr "xml")].

(** A world whose only file is the dump of [{"episode_format": "xml"}]. *)
Definition world_with_xml : world :=
  {| files := {[ "/tmp/config.yaml" := Dump (VDict episode_format_xml) ]};
     log := [] |}.

(** An instance every field of which has the type of its annotation. *)
Definition well_typed (c : Configuration) : Prop :=
  forall f, has_type (annotation_of f) (getattr c f) = true.

(** The normalized settings [{"DEFAULT_FREQ": 60, "DEFAULT_DATASET_NAME": "foo"}]
    and the settings [{1: 2}], whose key is no [str]. *)
Definition two_settings : strdict :=
  [("DEFAULT_FREQ", VInt 60); ("DEFAULT_DATASET_NAME", VStr "foo")].
Definition int_key : pydict := [(VInt 1, VInt 2)].

(** A world whose only file is the dump of [{1: 2}], and one whose only file
    is the dump of [{"freq": 60}]. *)
Definition world_with_int_key : world :=
  {| files := {[ "/tmp/config.yaml" := Dump (VDict int_key) ]}; log := [] |}.
Definition world_with_freq : world :=
  {| files := {[ "/tmp/config.yaml" := Dump (VDict freq_60) ]}; log := [] |}.

(** Two bare settings, and [two_settings] with its items exchanged. *)
Definition bare_settings : strdict :=
  [("freq", VInt 60); ("dataset_name", VStr "foo")].
Definition two_settings_swapped : strdict :=
  [("DEFAULT_DATASET_NAME", VStr "foo"); ("DEFAULT_FREQ", VInt 60)].

(** An operating system on which no command is installed. *)
Definition nothing_installed (command : list string) : run_outcome :=
  FileNotFoundError.

(** An operating system for the examples: every command exits with status 0
    and prints the text given. *)
Definition prints (out : string) (command : list string) : run_outcome :=
  Completed (Some out).

(** ** Readings of the specification that the code is compared with *)

(** After a save that validates, each field holds the very value supplied
    under its key, or its default. *)
Definition save_keeps_supplied_values
    (self : Configuration) (user_settings : pydict) (w : world) : Prop :=
  forall d new_config,
    rename_keys_for_config user_settings = Ok d ->
    model_validate d = Ok new_config ->
    forall f,
      getattr (save_user_settings self user_settings w).1.2 f
      = match dict_get (Field.name f) d with
        | Some v => v
        | None => Field.default f
        end.

(** A save that validates writes the mapping as the caller gave it. *)
Definition save_writes_original_mapping
    (self : Configuration) (user_settings : pydict) (w : world) : Prop :=
  forall d new_config,
    rename_keys_for_config user_settings = Ok d ->
    model_validate d = Ok new_config ->
    files (save_user_settings self user_settings w).1.1 !! YAML_CONFIG_PATH
    = Some (Dump (VDict user_settings)).

(** Loading the file after a save that validates returns the instance the
    save left behind. *)
Definition load_after_save_returns_saved
    (self : Configuration) (user_settings : pydict) (w : world) : Prop :=
  forall d new_config,
    rename_keys_for_config user_settings = Ok d ->
    model_validate d = Ok new_config ->
    (from_yaml None (save_user_settings self user_settings w).1.1).2
    = Ok (save_user_settings self user_settings w).1.2.

(** Construction refuses an integer below [bound] for the field [f]. *)
Definition refuses_below (f : Field.t) (bound : Z) (data : strdict) : Prop :=
  forall n,
    dict_get (Field.name f) data = Some (VInt n) ->
    (n < bound)%Z ->
    exists loc,
      Configuration_init data = Raise (ValidationError loc)
      /\ Field.name f ∈ loc.

(** A key that already carries the prefix is found upper-cased in the
    normalized dict. *)
Definition prefixed_keys_uppercased (items : strdict) : Prop :=
  forall k v,
    (k, v) ∈ items ->
    startswith k "DEFAULT_" = true ->
    exists d,
      rename_keys_for_config (str_items items) = Ok d
      /\ dict_get (upper k) d = Some v.

(** ** Facts about dictionaries and the normalizer *)

Local Open Scope list_scope.

Lemma dict_get_setitem (k k' : string) (v : value) (d : strdict) :
  dict_get k' (dict_setitem k v d)
  = if String.eqb k k' then Some v else dict_get k' d.
Proof.
  induction d as [|[k0 v0] d IH]; simpl.
  - reflexivity.
  - destruct (String.eqb_spec k0 k) as [->|Hne]; simpl.
    + destruct (String.eqb_spec k k'); reflexivity.
    + rewrite IH. destruct (String.eqb_spec k0 k') as [->|]; [|reflexivity].
      destruct (String.eqb_spec k k'); congruence.
Qed.

Lemma dict_get_app (k : string) (a b : strdict) :
  dict_get k (a ++ b)
  = match dict_get k a with Some v => Some v | None => dict_get k b end.
Proof.
  induction a as [|[k0 v0] a IH]; simpl; [reflexivity|].
  destruct (String.eqb k0 k); [reflexivity|apply IH].
Qed.

Lemma dict_get_None (k : string) (d : strdict) :
  dict_get k d = None <-> k ∉ d.*1.
Proof.
  induction d as [|[k0 v0] d IH]; simpl.
  - split; [intros _; apply not_elem_of_nil|reflexivity].
  - destruct (String.eqb_spec k0 k) as [->|Hne].
    + split; [discriminate|]. intros H. exfalso. apply H. left.
    + rewrite IH, not_elem_of_cons. split; [intros H; split; [congruence|exact H]|].
      intros [_ H]. exact H.
Qed.

Lemma dict_setitem_fresh (k : string) (v : value) (d : strdict) :
  k ∉ d.*1 -> dict_setitem k v d = d ++ [(k, v)].
Proof.
  induction d as [|[k0 v0] d IH]; simpl; [reflexivity|].
  rewrite not_elem_of_cons. intros [Hne Hd].
  destruct (String.eqb_spec k0 k); [congruence|]. now rewrite IH.
Qed.

Lemma dict_setitem_keys (k : string) (v : value) (d : strdict) :
  (dict_setitem k v d).*1 = if decide (k ∈ d.*1) then d.*1 else d.*1 ++ [k].
Proof.
  induction d as [|[k0 v0] d IH]; cbn [dict_setitem].
  - destruct (decide (k ∈ _)) as [H|]; [inversion H|reflexivity].
  - destruct (String.eqb_spec k0 k) as [->|Hne]; rewrite !fmap_cons; cbn [fst].
    + rewrite decide_True by constructor. reflexivity.
    + rewrite IH. destruct (decide (k ∈ d.*1)) as [Hin|Hni].
      * rewrite decide_True by (now constructor). reflexivity.
      * rewrite decide_False; [reflexivity|].
        rewrite not_elem_of_cons. split; congruence.
Qed.

Lemma renamed_key_prefixed (key : string) :
  startswith (renamed_key key) "DEFAULT_" = true.
Proof.
  unfold renamed_key. destruct (startswith key "DEFAULT_") eqn:E; simpl.
  - exact E.
  - unfold startswith. simpl. now destruct (upper key).
Qed.

Lemma renamed_key_fixed (key : string) :
  startswith key "DEFAULT_" = true -> renamed_key key = key.
Proof. unfold renamed_key. now intros ->. Qed.

Lemma renamed_key_idempotent (key : string) :
  renamed_key (renamed_key key) = renamed_key key.
Proof. apply renamed_key_fixed, renamed_key_prefixed. Qed.

Lemma dict_setitem_normalized (k : string) (v : value) (d : strdict) :
  startswith k "DEFAULT_" = true -> normalized d -> normalized (dict_setitem k v d).
Proof.
  intros Hk [Hnd Hall]. unfold normalized. rewrite dict_setitem_keys.
  destruct (decide (k ∈ d.*1)) as [Hin|Hni]; [easy|]. split.
  - apply NoDup_app. repeat split; [exact Hnd| |apply NoDup_singleton].
    intros x Hx Hx'. apply list_elem_of_singleton in Hx'. congruence.
  - apply Forall_app. split; [exact Hall|]. now constructor.
Qed.

Lemma rename_items_acc_normalized (items acc : strdict) :
  normalized acc ->
  normalized (fold_left (fun d kv => dict_setitem (renamed_key kv.1) kv.2 d) items acc).
Proof.
  revert acc. induction items as [|[k v] items IH]; intros acc Hacc; simpl.
  - exact Hacc.
  - apply IH, dict_setitem_normalized; [apply renamed_key_prefixed|exact Hacc].
Qed.

Lemma rename_items_normalized (items : strdict) : normalized (rename_items items).
Proof.
  apply rename_items_acc_normalized. split; simpl; constructor.
Qed.

Lemma rename_fold_raise (input : pydict) (e : exn) :
  fold_left
    (fun acc item =>
       let! d := acc in
       match item.1 with
       | VStr key => Ok (dict_setitem (renamed_key key) item.2 d)
       | _ => Raise (AttributeError "startswith")
       end) input (Raise e) = Raise e.
Proof. induction input as [|item input IH]; simpl; [reflexivity|exact IH]. Qed.

Lemma rename_fold_ok (input : pydict) (acc d : strdict) :
  fold_left
    (fun acc item =>
       let! d := acc in
       match item.1 with
       | VStr key => Ok (dict_setitem (renamed_key key) item.2 d)
       | _ => Raise (AttributeError "startswith")
       end) input (Ok acc) = Ok d ->
  exists items, input = str_items items
    /\ d = fold_left (fun d kv => dict_setitem (renamed_key kv.1) kv.2 d) items acc.
Proof.
  revert acc. induction input as [|[k v] input IH]; intros acc H; simpl in H.
  - exists []. split; [reflexivity|]. simpl. congruence.
  - destruct k; try (rewrite rename_fold_raise in H; discriminate).
    apply IH in H as (items & -> & ->). now exists ((s, v) :: items).
Qed.

Lemma rename_keys_for_config_str (items : strdict) :
  rename_keys_for_config (str_items items) = Ok (rename_items items).
Proof.
  unfold rename_keys_for_config, rename_items. generalize (@nil (string * value)).
  induction items as [|[k v] items IH]; intros acc; simpl; [reflexivity|apply IH].
Qed.

Lemma rename_keys_for_config_ok (input : pydict) (d : strdict) :
  rename_keys_for_config input = Ok d ->
  exists items, input = str_items items /\ d = rename_items items.
Proof. apply rename_fold_ok. Qed.

Lemma rename_keys_for_config_normalized (input : pydict) (d : strdict) :
  rename_keys_for_config input = Ok d -> normalized d.
Proof.
  intros (items & _ & ->)%rename_keys_for_config_ok. apply rename_items_normalized.
Qed.

Lemma rename_items_acc_fixed (items acc : strdict) :
  NoDup (acc.*1 ++ items.*1) ->
  Forall (fun k => startswith k "DEFAULT_" = true) items.*1 ->
  fold_left (fun d kv => dict_setitem (renamed_key kv.1) kv.2 d) items acc
  = acc ++ items.
Proof.
  revert acc. induction items as [|[k v] items IH]; intros acc Hnd Hall; simpl.
  - now rewrite app_nil_r.
  - simpl in Hall. apply Forall_cons in Hall as [Hk Hall].
    rewrite renamed_key_fixed by exact Hk. simpl in Hnd.
    rewrite dict_setitem_fresh.
    + rewrite IH; [now rewrite <- app_assoc| |exact Hall].
      rewrite fmap_app, <- app_assoc. exact Hnd.
    + apply NoDup_app in Hnd as (_ & Hdisj & _). intros Hin.
      apply (Hdisj k Hin). now left.
Qed.

Lemma rename_items_fixed (d : strdict) : normalized d -> rename_items d = d.
Proof.
  intros [Hnd Hall]. unfold rename_items. now rewrite rename_items_acc_fixed.
Qed.

Lemma rename_items_acc_get (k' : string) (items acc : strdict) :
  dict_get k' (fold_left (fun d kv => dict_setitem (renamed_key kv.1) kv.2 d) items acc)
  = match dict_get k' (reverse (map (fun kv => (renamed_key kv.1, kv.2)) items)) with
    | Some v => Some v
    | None => dict_get k' acc
    end.
Proof.
  revert acc. induction items as [|[k v] items IH]; intros acc; simpl.
  - reflexivity.
  - rewrite IH, reverse_cons, dict_get_app, dict_get_setitem. simpl.
    destruct (dict_get k' (reverse _)); [reflexivity|].
    destruct (String.eqb (renamed_key k) k'); reflexivity.
Qed.

(** ** Facts about the model *)

Lemma getattr_instance (g : Field.t -> value) (f : Field.t) :
  getattr (instance g) f = g f.
Proof. destruct f; reflexivity. Qed.

Lemma instance_getattr (c : Configuration) : instance (getattr c) = c.
Proof. destruct c; reflexivity. Qed.

Lemma instance_ext (g g' : Field.t -> value) :
  (forall f, g f = g' f) -> instance g = instance g'.
Proof. intros H. unfold instance. now rewrite !H. Qed.

Lemma getattr_ext (c c' : Configuration) :
  (forall f, getattr c f = getattr c' f) -> c = c'.
Proof.
  intros H. rewrite <- (instance_getattr c), <- (instance_getattr c').
  now apply instance_ext.
Qed.

(** The loop of [save_user_settings] leaves [self] with the attributes of
    [new_config]. *)
Lemma setattr_loop (new_config self : Configuration) :
  fold_left (fun self field => setattr self field (getattr new_config field))
    model_fields self = new_config.
Proof. destruct new_config, self; reflexivity. Qed.

Lemma elem_of_model_fields (f : Field.t) : f ∈ model_fields.
Proof.
  unfold model_fields.
  destruct f; repeat first [apply list_elem_of_here | apply list_elem_of_further].
Qed.

Lemma field_name_inj (f g : Field.t) : Field.name f = Field.name g -> f = g.
Proof. destruct f, g; first [reflexivity | discriminate]. Qed.

Lemma elem_of_invalid_fields (data : strdict) (f : Field.t) :
  f ∈ invalid_fields data <-> validate_field data f = None.
Proof.
  unfold invalid_fields. rewrite list_elem_of_filter.
  split; [now intros [? _]|]. intros H. split; [exact H|apply elem_of_model_fields].
Qed.

Lemma Configuration_init_ok (data : strdict) (c : Configuration) :
  Configuration_init data = Ok c <->
  forall f, validate_field data f = Some (getattr c f).
Proof.
  unfold Configuration_init. split.
  - destruct (invalid_fields data) as [|b bad] eqn:E; [|discriminate].
    intros [= <-] f. rewrite getattr_instance.
    destruct (validate_field data f) eqn:Ef; [reflexivity|].
    apply elem_of_invalid_fields in Ef. rewrite E in Ef. inversion Ef.
  - intros H. destruct (invalid_fields data) as [|b bad] eqn:E.
    + f_equal. rewrite <- (instance_getattr c). apply instance_ext.
      intros f. now rewrite H.
    + assert (Hb : b ∈ invalid_fields data) by (rewrite E; left).
      apply elem_of_invalid_fields in Hb. rewrite H in Hb. discriminate.
Qed.

Lemma Configuration_init_raise (data : strdict) (e : exn) :
  Configuration_init data = Raise e <->
  e = ValidationError (Field.name <$> invalid_fields data)
  /\ invalid_fields data <> [].
Proof.
  unfold Configuration_init.
  destruct (invalid_fields data) as [|b bad]; split.
  - discriminate.
  - now intros [_ ?].
  - intros [= <-]. now split.
  - now intros [-> _].
Qed.

(** Construction reads the data only under the names of the fields. *)
Lemma Configuration_init_ext (data data' : strdict) :
  (forall f, dict_get (Field.name f) data = dict_get (Field.name f) data') ->
  Configuration_init data = Configuration_init data'.
Proof.
  intros H.
  assert (Hv : forall f, validate_field data f = validate_field data' f).
  { intros f. unfold validate_field. now rewrite H. }
  unfold Configuration_init, invalid_fields.
  rewrite (list_filter_iff _ (fun f => validate_field data' f = None))
    by (intros f; now rewrite Hv).
  rewrite (instance_ext _ (fun f => default VNone (validate_field data' f)))
    by (intros f; now rewrite Hv).
  reflexivity.
Qed.

Lemma mapM_has_type (a : annotation) (l : list value) :
  (forall v, has_type a v = true -> validate a v = Some v) ->
  forallb (has_type a) l = true ->
  mapM (validate a) l = Some l.
Proof.
  intros IH. induction l as [|x l IHl]; simpl; [reflexivity|].
  intros [Hx Hl]%andb_prop. rewrite (IH x Hx). simpl. now rewrite IHl.
Qed.

(** A value of the annotated type is kept as it is. *)
Lemma validate_has_type (a : annotation) (v : value) :
  has_type a v = true -> validate a v = Some v.
Proof.
  revert v. induction a as [| | |choices|item IH|inner IH]; intros v Hv.
  - now destruct v.
  - now destruct v.
  - now destruct v.
  - destruct v; try discriminate. simpl in *. now rewrite Hv.
  - destruct v; try discriminate. simpl in *.
    now rewrite (mapM_has_type item items IH Hv).
  - destruct v; simpl in *; try reflexivity; now apply IH.
Qed.

Lemma recognized_field (f : Field.t) : recognized (Field.name f) = true.
Proof. now destruct f. Qed.

Lemma dict_get_restrict (k : string) (d : strdict) :
  recognized k = true -> dict_get k (restrict d) = dict_get k d.
Proof.
  intros Hk. unfold restrict. induction d as [|[k0 v0] d IH]; [reflexivity|].
  destruct (decide (recognized k0 = true)) as [H0|H0].
  - rewrite filter_cons_True by exact H0. simpl. now rewrite IH.
  - rewrite filter_cons_False by exact H0. simpl.
    destruct (String.eqb_spec k0 k) as [->|]; [congruence|exact IH].
Qed.

Lemma dict_get_unique (k : string) (v : value) (d : strdict) :
  (k, v) ∈ d -> (forall v', (k, v') ∈ d -> v' = v) -> dict_get k d = Some v.
Proof.
  induction d as [|[k0 v0] d IH]; intros Hin Hall; [inversion Hin|]. simpl.
  destruct (String.eqb_spec k0 k) as [->|Hne].
  - f_equal. apply Hall. left.
  - apply IH.
    + apply elem_of_cons in Hin as [[=]|Hin]; [congruence|exact Hin].
    + intros v' Hv'. apply Hall. now right.
Qed.

Lemma outside_not_prefixed (f : Field.t) :
  Field.outside_recording_defaults f = true ->
  startswith (Field.name f) "DEFAULT_" = false.
Proof. destruct f; first [reflexivity | discriminate]. Qed.

Lemma normalized_outside (d : strdict) (f : Field.t) :
  normalized d ->
  Field.outside_recording_defaults f = true ->
  dict_get (Field.name f) d = None.
Proof.
  intros [_ Hall] Hf. apply dict_get_None. intros Hin.
  rewrite Forall_forall in Hall. apply Hall in Hin.
  rewrite (outside_not_prefixed f Hf) in Hin. discriminate.
Qed.

Lemma Configuration_init_missing (data : strdict) (c : Configuration) (f : Field.t) :
  Configuration_init data = Ok c ->
  dict_get (Field.name f) data = None ->
  getattr c f = Field.default f.
Proof.
  intros Hc Hf. rewrite Configuration_init_ok in Hc. specialize (Hc f).
  unfold validate_field in Hc. rewrite Hf in Hc. congruence.
Qed.

Lemma Configuration_init_empty : Configuration_init [] = Ok defaults.
Proof. reflexivity. Qed.

Lemma dict_get_elem_of (k : string) (v : value) (d : strdict) :
  NoDup d.*1 -> dict_get k d = Some v <-> (k, v) ∈ d.
Proof.
  induction d as [|[k0 v0] d IH]; simpl.
  - intros _. split; [discriminate|]. intros H. inversion H.
  - rewrite NoDup_cons. intros [Hk0 Hnd]. rewrite elem_of_cons.
    destruct (String.eqb_spec k0 k) as [->|Hne].
    + split; [intros [= ->]; now left|]. intros [[= ->]|Hin]; [reflexivity|].
      exfalso. apply Hk0. now apply (list_elem_of_fmap_2 fst) in Hin.
    + rewrite (IH Hnd). split; [now right|]. intros [[= ? ?]|Hin]; congruence.
Qed.

(** On a dict without repeated keys the order of the items is not read. *)
Lemma dict_get_permutation (k : string) (d d' : strdict) :
  NoDup d.*1 -> d ≡ₚ d' -> dict_get k d = dict_get k d'.
Proof.
  intros Hnd Hp.
  assert (Hnd' : NoDup d'.*1) by (now rewrite <- Hp).
  destruct (dict_get k d) as [v|] eqn:E.
  - symmetry. apply dict_get_elem_of; [exact Hnd'|]. rewrite <- Hp.
    now apply dict_get_elem_of.
  - symmetry. apply dict_get_None. rewrite <- Hp. now apply dict_get_None.
Qed.

Lemma normalized_permutation (d d' : strdict) :
  normalized d -> d ≡ₚ d' -> normalized d'.
Proof. intros [Hnd Hall] Hp. split; now rewrite <- Hp. Qed.

(** ** The saver and the loader *)

Lemma save_user_settings_ok
    (self : Configuration) (user_settings : pydict) (w : world)
    (d : strdict) (new_config : Configuration) :
  rename_keys_for_config user_settings = Ok d ->
  model_validate d = Ok new_config ->
  save_user_settings self user_settings w
  = (write YAML_CONFIG_PATH (Dump (dict_value d)) w, new_config, Ok ()).
Proof.
  intros Hd Hc. unfold save_user_settings. rewrite Hd. cbn [bind].
  rewrite Hc. cbn [bind]. now rewrite setattr_loop.
Qed.

Lemma save_user_settings_raise
    (self : Configuration) (user_settings : pydict) (w : world) (e : exn) :
  (let! d := rename_keys_for_config user_settings in model_validate d) = Raise e ->
  save_user_settings self user_settings w
  = (logger_error (Error_saving e) w, self, Ok ()).
Proof.
  intros H. unfold save_user_settings.
  destruct (rename_keys_for_config user_settings) as [d|e']; simpl in *.
  - rewrite H. reflexivity.
  - now injection H as ->.
Qed.

Lemma from_yaml_parsed_dict
    (path : string) (w : world) (c : contents) (items : pydict) :
  files w !! path = Some c ->
  safe_load c = Parsed (VDict items) ->
  from_yaml (Some path) w
  = (w, let! config := rename_keys_for_config items in Configuration_init config).
Proof. intros Hc Hl. unfold from_yaml. simpl. now rewrite Hc, Hl. Qed.

(** C1: when the normalized form of the proposed mapping is refused by the
    model, [save_user_settings] changes no file and no attribute of the
    instance, and returns normally; the error only reaches the log. *)
Theorem save_user_settings_refused
    (self : Configuration) (user_settings : pydict) (w : world)
    (d : strdict) (e : exn) :
  rename_keys_for_config user_settings = Ok d ->
  model_validate d = Raise e ->
  save_user_settings self user_settings w
  = (logger_error (Error_saving e) w, self, Ok ())
  /\ files (save_user_settings self user_settings w).1.1 = files w
  /\ (save_user_settings self user_settings w).1.2 = self
  /\ (save_user_settings self user_settings w).2 = Ok ().
Proof.
  intros Hd He.
  assert (H : save_user_settings self user_settings w
              = (logger_error (Error_saving e) w, self, Ok ())).
  { apply save_user_settings_raise. rewrite Hd. exact He. }
  rewrite H. repeat split.
Qed.

(** C2 (amended): after a save that validates, every field whose normalized
    key is in the mapping holds what the field's validator makes of the
    supplied value (the supplied value itself when it already has the field's
    type), and every other field holds its default, whatever the instance
    held before. *)
Theorem save_user_settings_replaces
    (self : Configuration) (user_settings : pydict) (w : world)
    (d : strdict) (new_config : Configuration) :
  rename_keys_for_config user_settings = Ok d ->
  model_validate d = Ok new_config ->
  forall f,
    match dict_get (Field.name f) d with
    | Some v =>
        validate (annotation_of f) v
        = Some (getattr (save_user_settings self user_settings w).1.2 f)
        /\ (has_type (annotation_of f) v = true ->
            getattr (save_user_settings self user_settings w).1.2 f = v)
    | None =>
        getattr (save_user_settings self user_settings w).1.2 f = Field.default f
    end.
Proof.
  intros Hd Hc f. rewrite (save_user_settings_ok _ _ _ _ _ Hd Hc). simpl.
  unfold model_validate in Hc. rewrite Configuration_init_ok in Hc.
  specialize (Hc f).
  unfold validate_field in Hc. destruct (dict_get (Field.name f) d) as [v|].
  - split; [exact Hc|]. intros Ht. apply validate_has_type in Ht. congruence.
  - congruence.
Qed.

(** C3 (the loader raises): a file that parses to the mapping
    [{"episode_format": "xml"}] makes [from_yaml] raise the model's
    [ValidationError] instead of returning an instance. *)
Theorem from_yaml_raises_on_refused_value
    (path : string) (w : world) (c : contents) :
  files w !! path = Some c ->
  safe_load c = Parsed (VDict episode_format_xml) ->
  from_yaml (Some path) w
  = (w, Raise (ValidationError ["DEFAULT_EPISODE_FORMAT"])).
Proof.
  intros Hc Hl. rewrite (from_yaml_parsed_dict _ _ _ _ Hc Hl). reflexivity.
Qed.

(** C4 (amended): a save that validates writes the normalized mapping (the
    keys as [rename_keys_for_config] returns them) to the configuration file,
    replacing whatever the file held, and leaves the instance with every
    attribute of the newly validated instance. *)
Theorem save_user_settings_writes_normalized
    (self : Configuration) (user_settings : pydict) (w : world)
    (d : strdict) (new_config : Configuration) :
  rename_keys_for_config user_settings = Ok d ->
  model_validate d = Ok new_config ->
  files (save_user_settings self user_settings w).1.1
  = <[YAML_CONFIG_PATH := Dump (dict_value d)]> (files w)
  /\ files (save_user_settings self user_settings w).1.1 !! YAML_CONFIG_PATH
     = Some (Dump (dict_value d))
  /\ (forall f, getattr (save_user_settings self user_settings w).1.2 f
                = getattr new_config f)
  /\ (save_user_settings self user_settings w).2 = Ok ().
Proof.
  intros Hd Hc. rewrite (save_user_settings_ok _ _ _ _ _ Hd Hc). simpl.
  repeat split. apply lookup_insert_eq.
Qed.

(** C5 (amended): a field annotated [int] (frequency, max-probe-index,
    max-can-interfaces) has no range.  When a value is present under its key,
    construction fails naming the field exactly when the field's validation
    refuses the value; when construction succeeds the field holds what the
    value converts to; and every integer, positive or not, converts to
    itself. *)
Theorem int_field_accepts_any_int (f : Field.t) (data : strdict) (v : value) :
  annotation_of f = TInt ->
  dict_get (Field.name f) data = Some v ->
  ((exists loc, Configuration_init data = Raise (ValidationError loc)
                /\ Field.name f ∈ loc)
   <-> validate (annotation_of f) v = None)
  /\ (forall c, Configuration_init data = Ok c ->
                validate (annotation_of f) v = Some (getattr c f))
  /\ (forall n, v = VInt n ->
      validate (annotation_of f) v = Some (VInt n)
      /\ (forall loc, Configuration_init data = Raise (ValidationError loc) ->
                      Field.name f ∉ loc)
      /\ (forall c, Configuration_init data = Ok c -> getattr c f = VInt n)).
Proof.
  intros Ha Hv.
  assert (Hf : validate_field data f = validate (annotation_of f) v).
  { unfold validate_field. now rewrite Hv. }
  assert (Hnamed : forall loc,
             Configuration_init data = Raise (ValidationError loc) ->
             Field.name f ∈ loc -> validate (annotation_of f) v = None).
  { intros loc [[= ->] _]%Configuration_init_raise Hin.
    apply list_elem_of_fmap in Hin as (g & Hg & Hin).
    apply field_name_inj in Hg as <-.
    apply elem_of_invalid_fields in Hin. congruence. }
  assert (Hok : forall c, Configuration_init data = Ok c ->
                          validate (annotation_of f) v = Some (getattr c f)).
  { intros c Hc. rewrite Configuration_init_ok in Hc. specialize (Hc f). congruence. }
  split; [split|split; [exact Hok|]].
  - intros (loc & Hraise & Hin). exact (Hnamed loc Hraise Hin).
  - intros Hnone. rewrite <- Hf in Hnone. apply elem_of_invalid_fields in Hnone.
    exists (Field.name <$> invalid_fields data). split.
    + apply Configuration_init_raise. split; [reflexivity|].
      intros E. rewrite E in Hnone. inversion Hnone.
    + now apply list_elem_of_fmap_2.
  - intros n ->. rewrite Ha in *. simpl in *. split; [reflexivity|]. split.
    + intros loc Hraise Hin. specialize (Hnamed loc Hraise Hin). discriminate.
    + intros c Hc. specialize (Hok c Hc). congruence.
Qed.

(** C6 (what the code does): [{"DEFAULT_freq": 60}] comes out of the
    normalizer as it went in, its key not in upper case although the
    docstring says keys are written in upper case; no key [DEFAULT_FREQ]
    results, and construction then ignores the setting. *)
Theorem rename_keys_for_config_prefixed_lower_case :
  rename_keys_for_config [(VStr "DEFAULT_freq", VInt 60)]
  = Ok [("DEFAULT_freq", VInt 60)]
  /\ upper "DEFAULT_freq" = "DEFAULT_FREQ"
  /\ dict_get "DEFAULT_FREQ" [("DEFAULT_freq", VInt 60)] = None
  /\ Configuration_init [("DEFAULT_freq", VInt 60)] = Ok defaults.
Proof. repeat split. Qed.

(** The lookups of the normalized dict: on a dict with [str] keys the
    normalizer succeeds and each new key holds the value of the last item
    that was renamed to it; a key without the prefix is renamed to its upper
    case behind the prefix, a key with the prefix is renamed to itself. *)
Theorem rename_keys_for_config_keys (items : strdict) :
  exists d,
    rename_keys_for_config (str_items items) = Ok d
    /\ (forall k',
          dict_get k' d
          = dict_get k'
              (reverse
                 (map (fun kv =>
                         (if startswith kv.1 "DEFAULT_" then kv.1
                          else ("DEFAULT_" ++ upper kv.1)%string, kv.2))
                    items)))
    /\ (forall k v,
          (k, v) ∈ items ->
          (forall k2 v2, (k2, v2) ∈ items -> renamed_key k2 = renamed_key k -> v2 = v) ->
          dict_get (if startswith k "DEFAULT_" then k
                    else ("DEFAULT_" ++ upper k)%string) d = Some v).
Proof.
  exists (rename_items items).
  assert (Hmap : map (fun kv : string * value =>
                        (if startswith kv.1 "DEFAULT_" then kv.1
                         else ("DEFAULT_" ++ upper kv.1)%string, kv.2)) items
                 = map (fun kv => (renamed_key kv.1, kv.2)) items).
  { apply map_ext. intros [k v]. unfold renamed_key. simpl.
    now destruct (startswith k "DEFAULT_"). }
  assert (Hget : forall k', dict_get k' (rename_items items)
            = dict_get k' (reverse (map (fun kv => (renamed_key kv.1, kv.2)) items))).
  { intros k'. unfold rename_items. rewrite rename_items_acc_get.
    now destruct (dict_get k' _). }
  split; [apply rename_keys_for_config_str|]. split.
  - intros k'. rewrite Hmap. apply Hget.
  - intros k v Hin Huniq.
    replace (if startswith k "DEFAULT_" then k else ("DEFAULT_" ++ upper k)%string)
      with (renamed_key k)
      by (unfold renamed_key; now destruct (startswith k "DEFAULT_")).
    rewrite Hget. apply dict_get_unique.
    + rewrite elem_of_reverse.
      apply (list_elem_of_fmap_2 (fun kv : string * value => (renamed_key kv.1, kv.2))) in Hin.
      exact Hin.
    + intros v' Hv'. rewrite elem_of_reverse in Hv'.
      apply list_elem_of_fmap in Hv' as ([k2 v2] & [= Hk ->] & Hin2).
      now apply (Huniq k2).
Qed.

(** C7: no key leaves the normalizer under the name of a camera or robot
    field, so no loaded file and no save request can set one: wherever the
    loader or the saver yields an instance, those fields hold their defaults. *)
Theorem fields_outside_recording_defaults_unreachable (f : Field.t) :
  Field.outside_recording_defaults f = true ->
  (forall input d,
      rename_keys_for_config input = Ok d -> dict_get (Field.name f) d = None)
  /\ (forall config_path w w' c,
        from_yaml config_path w = (w', Ok c) -> getattr c f = Field.default f)
  /\ (forall self user_settings w d c,
        rename_keys_for_config user_settings = Ok d ->
        model_validate d = Ok c ->
        getattr (save_user_settings self user_settings w).1.2 f = Field.default f).
Proof.
  intros Hf.
  assert (Hkey : forall input d,
             rename_keys_for_config input = Ok d -> dict_get (Field.name f) d = None).
  { intros input d Hd. apply normalized_outside; [|exact Hf].
    now apply rename_keys_for_config_normalized in Hd. }
  split; [exact Hkey|]. split.
  - intros config_path w w' c. unfold from_yaml.
    destruct (files w !! default YAML_CONFIG_PATH config_path) as [ct|].
    + destruct (safe_load ct) as [msg|v];
        match goal with
        | |- (_, bind (rename_keys_for_config ?i) _) = _ -> _ =>
            destruct (rename_keys_for_config i) as [d|e] eqn:Hd
        end; simpl; intros [= _ Hc]; try discriminate;
        apply (Configuration_init_missing _ _ _ Hc), (Hkey _ _ Hd).
    + rewrite Configuration_init_empty. intros [= _ <-]. apply getattr_instance.
  - intros self user_settings w d c Hd Hc.
    rewrite (save_user_settings_ok _ _ _ _ _ Hd Hc). simpl.
    apply (Configuration_init_missing _ _ _ Hc), (Hkey _ _ Hd).
Qed.

(** C8: keys that name no field are ignored: construction on a mapping
    succeeds or fails exactly as on its restriction to the recognized keys,
    with the same instance or the same refused fields. *)
Theorem unknown_keys_ignored (data : strdict) :
  Configuration_init data = Configuration_init (restrict data).
Proof.
  apply Configuration_init_ext. intros f. symmetry.
  apply dict_get_restrict, recognized_field.
Qed.

(** C9: when no file exists at the path, [from_yaml] creates it empty and
    returns the instance of all defaults, with frequency 30 and episode
    format lerobot_v2.1. *)
Theorem from_yaml_creates_missing_file (config_path : option string) (w : world) :
  files w !! default YAML_CONFIG_PATH config_path = None ->
  from_yaml config_path w
  = (write (default YAML_CONFIG_PATH config_path) (Text EmptyString) w, Ok defaults)
  /\ files (from_yaml config_path w).1 !! default YAML_CONFIG_PATH config_path
     = Some (Text EmptyString)
  /\ DEFAULT_FREQ defaults = VInt 30
  /\ DEFAULT_EPISODE_FORMAT defaults = VStr "lerobot_v2.1".
Proof.
  intros Hnone. unfold from_yaml. rewrite Hnone. rewrite Configuration_init_empty.
  repeat split. apply lookup_insert_eq.
Qed.

(** C10 (amended): when PyYAML reads the dump of the normalized dict back
    as the same mapping, in whatever order of keys, loading the file that a
    validating save wrote returns the instance the save left behind, itself
    the newly validated instance; normalizing the normalized dict again
    gives it back. *)
Theorem save_then_load
    (self : Configuration) (user_settings : pydict) (w : world)
    (d d' : strdict) (new_config : Configuration) :
  rename_keys_for_config user_settings = Ok d ->
  model_validate d = Ok new_config ->
  d ≡ₚ d' ->
  safe_load_dump (dict_value d) = Parsed (dict_value d') ->
  from_yaml None (save_user_settings self user_settings w).1.1
  = ((save_user_settings self user_settings w).1.1,
     Ok (save_user_settings self user_settings w).1.2)
  /\ (save_user_settings self user_settings w).1.2 = new_config
  /\ rename_keys_for_config (str_items d) = Ok d.
Proof.
  intros Hd Hc Hp Hread.
  assert (Hn : normalized d) by now apply rename_keys_for_config_normalized in Hd.
  assert (Hfix : rename_keys_for_config (str_items d) = Ok d).
  { rewrite rename_keys_for_config_str. f_equal. now apply rename_items_fixed. }
  rewrite (save_user_settings_ok _ _ _ _ _ Hd Hc). simpl.
  split; [|split; [reflexivity|exact Hfix]].
  unfold from_yaml. simpl. rewrite lookup_insert_eq. simpl. rewrite Hread.
  unfold dict_value. rewrite rename_keys_for_config_str.
  rewrite rename_items_fixed by now apply (normalized_permutation d).
  simpl. rewrite <- Hc. f_equal. symmetry. apply Configuration_init_ext.
  intros f. apply dict_get_permutation; [apply Hn|exact Hp].
Qed.

(** A file that PyYAML cannot parse: the loader logs the error, returns the
    instance of all defaults and leaves every file as it was. *)
Theorem from_yaml_malformed_file
    (path : string) (w : world) (c : contents) (message : string) :
  files w !! path = Some c ->
  safe_load c = YAMLError message ->
  from_yaml (Some path) w = (logger_error (Error_loading message) w, Ok defaults)
  /\ files (from_yaml (Some path) w).1 = files w.
Proof.
  intros Hc Hl. unfold from_yaml. simpl. rewrite Hc, Hl. simpl. now split.
Qed.

(** ** More on the two comprehensions *)

Lemma comprehension_raise (attr : string) (g : string -> string)
    (input : pydict) (e : exn) :
  comprehension attr g input (Raise e) = Raise e.
Proof. induction input as [|item input IH]; simpl; [reflexivity|exact IH]. Qed.

Lemma comprehension_str (attr : string) (g : string -> string)
    (items acc : strdict) :
  comprehension attr g (str_items items) (Ok acc)
  = Ok (fold_left (fun d kv => dict_setitem (g kv.1) kv.2 d) items acc).
Proof.
  revert acc. induction items as [|[k v] items IH]; intros acc; simpl;
    [reflexivity|apply IH].
Qed.

Lemma comprehension_cases (attr : string) (g : string -> string)
    (input : pydict) (acc : strdict) :
  match comprehension attr g input (Ok acc) with
  | Ok _ => forallb (fun kv => is_str kv.1) input = true
  | Raise e =>
      forallb (fun kv => is_str kv.1) input = false /\ e = AttributeError attr
  end.
Proof.
  revert acc. induction input as [|[k v] input IH]; intros acc; [reflexivity|].
  destruct k; simpl; try (rewrite comprehension_raise; now split).
  apply IH.
Qed.

Lemma dict_setitem_length (k : string) (v : value) (d : strdict) :
  length (dict_setitem k v d) <= S (length d).
Proof.
  induction d as [|[k0 v0] d IH]; simpl; [lia|].
  destruct (String.eqb k0 k); simpl; lia.
Qed.

Lemma fold_setitem_length (g : string -> string) (items acc : strdict) :
  length (fold_left (fun d kv => dict_setitem (g kv.1) kv.2 d) items acc)
  <= length acc + length items.
Proof.
  revert acc. induction items as [|[k v] items IH]; intros acc; simpl; [lia|].
  specialize (IH (dict_setitem (g k) v acc)).
  pose proof (dict_setitem_length (g k) v acc). lia.
Qed.

Lemma fold_setitem_keys (g : string -> string) (items acc : strdict) (k' : string) :
  k' ∈ (fold_left (fun d kv => dict_setitem (g kv.1) kv.2 d) items acc).*1
  <-> k' ∈ acc.*1 \/ exists k, k ∈ items.*1 /\ k' = g k.
Proof.
  revert acc. induction items as [|[k v] items IH]; intros acc; simpl.
  - split; [now left|]. intros [H|(k & Hk & _)]; [exact H|inversion Hk].
  - rewrite IH, dict_setitem_keys. split.
    + intros [H|(k0 & Hk0 & ->)].
      * destruct (decide (g k ∈ acc.*1)); [now left|].
        apply elem_of_app in H as [H|H]; [now left|].
        apply list_elem_of_singleton in H as ->. right. exists k. split; [left|reflexivity].
      * right. exists k0. split; [now right|reflexivity].
    + intros [H|(k0 & Hk0 & ->)].
      * left. destruct (decide (g k ∈ acc.*1)); [exact H|].
        apply elem_of_app. now left.
      * apply elem_of_cons in Hk0 as [->|Hk0].
        -- left. destruct (decide (g k ∈ acc.*1)); [assumption|].
           apply elem_of_app. right. now apply list_elem_of_singleton.
        -- right. now exists k0.
Qed.

Lemma fold_setitem_nodup (g : string -> string) (items acc : strdict) :
  NoDup (acc.*1 ++ (g <$> items.*1)) ->
  fold_left (fun d kv => dict_setitem (g kv.1) kv.2 d) items acc
  = acc ++ map (fun kv => (g kv.1, kv.2)) items.
Proof.
  revert acc. induction items as [|[k v] items IH]; intros acc Hnd; simpl.
  - now rewrite app_nil_r.
  - simpl in Hnd. rewrite dict_setitem_fresh.
    + rewrite IH; [now rewrite <- app_assoc|].
      rewrite fmap_app, <- app_assoc. exact Hnd.
    + apply NoDup_app in Hnd as (_ & Hdisj & _). intros Hin.
      apply (Hdisj (g k) Hin). now left.
Qed.

Lemma ascii_lower_upper (c : ascii) : ascii_lower (ascii_upper c) = ascii_lower c.
Proof. destruct c as [[] [] [] [] [] [] [] []]; reflexivity. Qed.

Lemma lower_upper (s : string) : lower (upper s) = lower s.
Proof.
  induction s as [|c s IH]; [reflexivity|]. unfold lower, upper in *. simpl.
  now rewrite ascii_lower_upper, IH.
Qed.

Lemma replace_default_absent (s : string) :
  contains "DEFAULT_" s = false -> replace_default 0 s = s.
Proof.
  induction s as [|c s IH]; [reflexivity|]. cbn [contains replace_default].
  intros [Hp Hs]%orb_false_elim. unfold startswith. rewrite Hp. now rewrite IH.
Qed.

Lemma replace_default_prefixed (s : string) :
  replace_default 0 ("DEFAULT_" ++ s)%string = replace_default 0 s.
Proof.
  assert (H : startswith ("DEFAULT_" ++ s)%string "DEFAULT_" = true).
  { unfold startswith. simpl. now destruct s. }
  change ("DEFAULT_" ++ s)%string
    with (String "D" (String "E" (String "F" (String "A" (String "U"
            (String "L" (String "T" (String "_" s)))))))) in *.
  cbn [replace_default]. now rewrite H.
Qed.

Lemma rekeyed_keys (g : string -> string) (d : strdict) :
  (map (fun kv => (g kv.1, kv.2)) d).*1 = g <$> d.*1.
Proof. induction d as [|[k v] d IH]; [reflexivity|]. simpl. now f_equal. Qed.

Lemma str_items_keys (items : strdict) (k : string) :
  VStr k ∈ (str_items items).*1 <-> k ∈ items.*1.
Proof.
  unfold str_items. induction items as [|[k0 v0] items IH]; simpl.
  - split; intros H; inversion H.
  - rewrite !elem_of_cons, IH. split; (intros [H|H]; [left|now right]); congruence.
Qed.


(** When the new keys of a dict with [str] keys are pairwise distinct, the
    normalizer returns every item under its new key, in the same order. *)
Theorem rename_keys_for_config_keeps_distinct_items (items : strdict) :
  NoDup (renamed_key <$> items.*1) ->
  rename_keys_for_config (str_items items)
  = Ok (map (fun kv => (renamed_key kv.1, kv.2)) items).
Proof.
  intros Hnd. rewrite rename_keys_for_config_str. f_equal.
  unfold rename_items. now rewrite fold_setitem_nodup.
Qed.

(** What the normalizer returns has pairwise distinct keys, all carrying the
    prefix, no more items than it was given, and exactly the new keys of the
    keys it was given. *)
Theorem rename_keys_for_config_output (input : pydict) (d : strdict) :
  rename_keys_for_config input = Ok d ->
  NoDup d.*1
  /\ Forall (fun k => startswith k "DEFAULT_" = true) d.*1
  /\ length d <= length input
  /\ (forall k', k' ∈ d.*1 <-> exists k, VStr k ∈ input.*1 /\ k' = renamed_key k).
Proof.
  intros Hd. pose proof (rename_keys_for_config_normalized _ _ Hd) as [Hnd Hall].
  apply rename_keys_for_config_ok in Hd as (items & -> & ->).
  split; [exact Hnd|]. split; [exact Hall|]. split.
  - unfold rename_items, str_items. rewrite length_map.
    apply (fold_setitem_length renamed_key items []).
  - intros k'. unfold rename_items. rewrite fold_setitem_keys.
    setoid_rewrite str_items_keys. split.
    + intros [H|(k & Hk & ->)]; [inversion H|]. exists k. now split.
    + intros (k & Hk & ->). right. exists k. now split.
Qed.

(** Internal to external and back: the external key of a field's name is
    renamed to that name again exactly for the recording defaults; for a
    camera or robot field the way back adds a prefix the name never had. *)
Theorem external_key_round_trip_fields (f : Field.t) :
  renamed_key (external_key (Field.name f)) = Field.name f
  <-> Field.outside_recording_defaults f = false.
Proof. destruct f; split; first [reflexivity | discriminate]. Qed.

(** External to internal and back: an ASCII key without the prefix, whose
    capitals do not spell the prefix anywhere, comes back in lower case. *)
Theorem external_key_of_renamed_key (key : string) :
  is_ascii key = true ->
  startswith key "DEFAULT_" = false ->
  contains "DEFAULT_" (upper key) = false ->
  external_key (renamed_key key) = lower key.
Proof.
  intros _ Hp Hc. unfold renamed_key, external_key. rewrite Hp. simpl negb. cbv iota.
  rewrite replace_default_prefixed, replace_default_absent by exact Hc.
  apply lower_upper.
Qed.

(** A dict whose keys are pairwise distinct and each survive the way out and
    back is restored by [remove_default_prefix] followed by the normalizer. *)
Theorem rename_after_remove_default_prefix (d : strdict) :
  NoDup d.*1 ->
  Forall (fun k => renamed_key (external_key k) = k) d.*1 ->
  exists d',
    remove_default_prefix (str_items d) = Ok d'
    /\ rename_keys_for_config (str_items d') = Ok d.
Proof.
  intros Hnd Hall.
  assert (Hkeys : (fun k => renamed_key (external_key k)) <$> d.*1 = d.*1).
  { clear Hnd. induction Hall as [|k ks Hk _ IH]; [reflexivity|].
    rewrite fmap_cons, Hk. now f_equal. }
  assert (Hext : NoDup (external_key <$> d.*1)).
  { apply (NoDup_fmap_1 renamed_key). rewrite <- list_fmap_compose.
    unfold compose. now rewrite Hkeys. }
  exists (map (fun kv => (external_key kv.1, kv.2)) d). split.
  - unfold remove_default_prefix.
    change (comprehension "replace" external_key (str_items d) (Ok [])
            = Ok (map (fun kv => (external_key kv.1, kv.2)) d)).
    rewrite comprehension_str. f_equal. now rewrite fold_setitem_nodup.
  - rewrite rename_keys_for_config_str. f_equal. unfold rename_items.
    rewrite fold_setitem_nodup; simpl.
    + rewrite map_map. simpl.
      clear Hnd Hext Hkeys. induction d as [|[k v] d IH]; [reflexivity|].
      simpl in *. apply Forall_cons in Hall as [Hk Hall]. rewrite Hk.
      f_equal. now apply IH.
    + rewrite rekeyed_keys, <- list_fmap_compose. unfold compose.
      now rewrite Hkeys.
Qed.

(** ** More on the model, the loader and the saver *)

Lemma getattr_setattr_eq (c : Configuration) (f : Field.t) (v : value) :
  getattr (setattr c f v) f = v.
Proof. destruct f; reflexivity. Qed.

Lemma getattr_setattr_ne (c : Configuration) (f g : Field.t) (v : value) :
  f <> g -> getattr (setattr c f v) g = getattr c g.
Proof. intros Hne. destruct f, g; first [reflexivity | congruence]. Qed.

Lemma mapM_validate_sound (a : annotation) (l l' : list value) :
  (forall v v', validate a v = Some v' -> has_type a v' = true) ->
  mapM (validate a) l = Some l' ->
  forallb (has_type a) l' = true.
Proof.
  intros IH. revert l'. induction l as [|x l IHl]; intros l'; simpl.
  - now intros [= <-].
  - destruct (validate a x) as [x'|] eqn:Ex; [|discriminate]. simpl.
    destruct (mapM (validate a) l) as [l0|]; [|discriminate]. simpl.
    intros [= <-]. simpl. rewrite (IH _ _ Ex). now apply IHl.
Qed.

(** What validation returns has the annotated type. *)
Lemma validate_sound (a : annotation) (v v' : value) :
  validate a v = Some v' -> has_type a v' = true.
Proof.
  revert v v'. induction a as [| | |choices|item IH|inner IH]; intros v v'; simpl.
  - destruct v; simpl; try discriminate.
    + now intros [= <-].
    + destruct (int_as_bool n); simpl; [now intros [= <-]|discriminate].
    + destruct (float_as_int x ≫= int_as_bool); simpl; [now intros [= <-]|discriminate].
    + destruct (str_as_bool s); simpl; [now intros [= <-]|discriminate].
  - destruct v; simpl; try discriminate.
    + now intros [= <-].
    + now intros [= <-].
    + destruct (float_as_int x); simpl; [now intros [= <-]|discriminate].
    + destruct (str_as_int s); simpl; [now intros [= <-]|discriminate].
  - destruct v; try discriminate. now intros [= <-].
  - destruct v; try discriminate.
    destruct (existsb (String.eqb s) choices) eqn:E; [|discriminate].
    now intros [= <-].
  - destruct v; try discriminate;
      (destruct (mapM (validate item) items) as [l'|] eqn:E; [|discriminate]);
      simpl; intros [= <-]; simpl;
      now apply (mapM_validate_sound item items l' IH).
  - destruct v; try (intros H; apply IH in H; now destruct v').
    now intros [= <-].
Qed.

Lemma default_has_type (f : Field.t) :
  "avc1" ∈ VideoCodecs -> has_type (annotation_of f) (Field.default f) = true.
Proof.
  intros Hin. destruct f; try reflexivity. simpl.
  apply existsb_exists. exists "avc1". split; [now apply list_elem_of_In|reflexivity].
Qed.

Lemma dict_get_single (k k' : string) (v : value) :
  dict_get k' [(k, v)] = if String.eqb k k' then Some v else None.
Proof. reflexivity. Qed.

Lemma Configuration_init_single (f : Field.t) (v v' : value) :
  validate (annotation_of f) v = Some v' ->
  Configuration_init [(Field.name f, v)] = Ok (setattr defaults f v').
Proof.
  intros Hv. apply Configuration_init_ok. intros g. unfold validate_field.
  rewrite dict_get_single.
  destruct (String.eqb_spec (Field.name f) (Field.name g)) as [E|E].
  - apply field_name_inj in E as <-. now rewrite getattr_setattr_eq.
  - rewrite getattr_setattr_ne by congruence. unfold defaults.
    now rewrite getattr_instance.
Qed.

Lemma Configuration_init_unrecognized (d : strdict) :
  (forall k, k ∈ d.*1 -> recognized k = false) ->
  Configuration_init d = Ok defaults.
Proof.
  intros H. rewrite <- Configuration_init_empty. apply Configuration_init_ext.
  intros f. simpl. apply dict_get_None. intros Hin. apply H in Hin.
  now rewrite recognized_field in Hin.
Qed.

(** The loader leaves a file behind at the path, never touches another path,
    and never rewrites a file that exists, whatever the file holds and
    whether or not an instance comes out. *)
Theorem from_yaml_files (config_path : option string) (w : world) :
  is_Some (files (from_yaml config_path w).1 !! default YAML_CONFIG_PATH config_path)
  /\ (forall p, p <> default YAML_CONFIG_PATH config_path ->
        files (from_yaml config_path w).1 !! p = files w !! p)
  /\ (forall c, files w !! default YAML_CONFIG_PATH config_path = Some c ->
        files (from_yaml config_path w).1 = files w).
Proof.
  unfold from_yaml.
  destruct (files w !! default YAML_CONFIG_PATH config_path) as [c|] eqn:E.
  - assert (H : files (let '(w0, config) :=
                         match safe_load c with
                         | YAMLError e => (logger_error (Error_loading e) w, VNone)
                         | Parsed config => (w, config)
                         end in
                       (w0, let! config := rename_keys_for_config
                              match config with VDict items => items | _ => [] end in
                            Configuration_init config)).1 = files w)
      by now destruct (safe_load c).
    rewrite H. split; [now rewrite E|]. now split.
  - simpl. split; [rewrite lookup_insert_eq; eauto|]. split; [|discriminate].
    intros p Hp. now rewrite lookup_insert_ne.
Qed.

(** A file that parses to anything but a mapping (nothing, a scalar, a
    sequence) gives the instance of all defaults, silently. *)
Theorem from_yaml_not_a_mapping
    (path : string) (w : world) (c : contents) (v : value) :
  files w !! path = Some c ->
  safe_load c = Parsed v ->
  (forall items, v <> VDict items) ->
  from_yaml (Some path) w = (w, Ok defaults).
Proof.
  intros Hc Hl Hv. unfold from_yaml. simpl. rewrite Hc, Hl.
  destruct v; try reflexivity. now destruct (Hv items).
Qed.

(** A file that parses to a mapping with a key that is not a [str] makes the
    loader raise [AttributeError]: the normalizer runs outside any [try]. *)
Theorem from_yaml_non_str_key
    (path : string) (w : world) (c : contents) (items : pydict) :
  files w !! path = Some c ->
  safe_load c = Parsed (VDict items) ->
  forallb (fun kv => is_str kv.1) items = false ->
  from_yaml (Some path) w = (w, Raise (AttributeError "startswith")).
Proof.
  intros Hc Hl Hk. rewrite (from_yaml_parsed_dict _ _ _ _ Hc Hl).
  pose proof (comprehension_cases "startswith" renamed_key items []) as H.
  change (comprehension "startswith" renamed_key items (Ok []))
    with (rename_keys_for_config items) in H.
  destruct (rename_keys_for_config items) as [d|e]; [congruence|].
  destruct H as [_ ->]. reflexivity.
Qed.

(** A file that parses to one entry whose key is renamed to the name of a
    field, and whose value the field accepts, gives the defaults with that
    one field set to the validated value. *)
Theorem from_yaml_single_setting
    (path : string) (w : world) (c : contents)
    (key : string) (v v' : value) (f : Field.t) :
  files w !! path = Some c ->
  safe_load c = Parsed (VDict [(VStr key, v)]) ->
  renamed_key key = Field.name f ->
  validate (annotation_of f) v = Some v' ->
  from_yaml (Some path) w = (w, Ok (setattr defaults f v')).
Proof.
  intros Hc Hl Hk Hv. rewrite (from_yaml_parsed_dict _ _ _ _ Hc Hl).
  unfold rename_keys_for_config. simpl. rewrite Hk.
  now rewrite (Configuration_init_single f v v' Hv).
Qed.

(** When PyYAML reads the empty text as nothing, the empty file the loader
    creates loads as all defaults again and is left as it is. *)
Theorem from_yaml_reload (config_path : option string) (w : world) :
  safe_load_text EmptyString = Parsed VNone ->
  files w !! default YAML_CONFIG_PATH config_path = None ->
  from_yaml config_path (from_yaml config_path w).1
  = ((from_yaml config_path w).1, Ok defaults).
Proof.
  intros He Hnone. unfold from_yaml at 2 3. rewrite Hnone. simpl.
  unfold from_yaml. simpl. rewrite lookup_insert_eq. simpl. now rewrite He.
Qed.

(** The saver never touches a file other than the one at
    [YAML_CONFIG_PATH], whatever the settings and whether or not they
    validate. *)
Theorem save_user_settings_frame
    (self : Configuration) (user_settings : pydict) (w : world) (p : string) :
  p <> YAML_CONFIG_PATH ->
  files (save_user_settings self user_settings w).1.1 !! p = files w !! p.
Proof.
  intros Hp. unfold save_user_settings.
  destruct (rename_keys_for_config user_settings) as [d|e]; simpl;
    [destruct (model_validate d) as [c|e]; simpl|]; try reflexivity.
  now rewrite lookup_insert_ne.
Qed.

(** All or nothing: a save either leaves the files and the instance as they
    were and logs one error, or writes the normalized mapping and leaves the
    instance equal to a fully validated one; nothing in between. *)
Theorem save_user_settings_all_or_nothing
    (self : Configuration) (user_settings : pydict) (w : world) :
  (files (save_user_settings self user_settings w).1.1 = files w
   /\ (save_user_settings self user_settings w).1.2 = self
   /\ exists e, log (save_user_settings self user_settings w).1.1
                = Error_saving e :: log w)
  \/ (exists d c,
        rename_keys_for_config user_settings = Ok d
        /\ model_validate d = Ok c
        /\ (save_user_settings self user_settings w).1.2 = c
        /\ files (save_user_settings self user_settings w).1.1
           = <[YAML_CONFIG_PATH := Dump (dict_value d)]> (files w)
        /\ log (save_user_settings self user_settings w).1.1 = log w).
Proof.
  destruct (rename_keys_for_config user_settings) as [d|e] eqn:Hd.
  - destruct (model_validate d) as [c|e] eqn:Hc.
    + right. exists d, c. rewrite (save_user_settings_ok _ _ _ _ _ Hd Hc).
      now repeat split.
    + left. rewrite (save_user_settings_raise self user_settings w e)
        by (rewrite Hd; exact Hc).
      repeat split. now exists e.
  - left. rewrite (save_user_settings_raise self user_settings w e)
      by (now rewrite Hd).
    repeat split. now exists e.
Qed.

(** Settings none of whose keys is renamed to the name of a field (a
    misspelt key, a camera or robot setting) validate all the same: the file
    is rewritten with them and the instance is left with every default. *)
Theorem save_user_settings_unrecognized_keys
    (self : Configuration) (user_settings : pydict) (w : world) (d : strdict) :
  rename_keys_for_config user_settings = Ok d ->
  (forall k, k ∈ d.*1 -> recognized k = false) ->
  save_user_settings self user_settings w
  = (write YAML_CONFIG_PATH (Dump (dict_value d)) w, defaults, Ok ()).
Proof.
  intros Hd Hk. apply save_user_settings_ok; [exact Hd|].
  now apply Configuration_init_unrecognized.
Qed.

(** Settings with a key that is not a [str] change nothing: the
    [AttributeError] of the normalizer is caught and logged. *)
Theorem save_user_settings_non_str_key
    (self : Configuration) (user_settings : pydict) (w : world) :
  forallb (fun kv => is_str kv.1) user_settings = false ->
  save_user_settings self user_settings w
  = (logger_error (Error_saving (AttributeError "startswith")) w, self, Ok ()).
Proof.
  intros Hk. apply save_user_settings_raise.
  pose proof (comprehension_cases "startswith" renamed_key user_settings []) as H.
  change (comprehension "startswith" renamed_key user_settings (Ok []))
    with (rename_keys_for_config user_settings) in H.
  destruct (rename_keys_for_config user_settings) as [d|e]; [congruence|].
  destruct H as [_ ->]. reflexivity.
Qed.

(** Saving the same valid settings a second time changes nothing more. *)
Theorem save_user_settings_idempotent
    (self : Configuration) (user_settings : pydict) (w : world)
    (d : strdict) (new_config : Configuration) :
  rename_keys_for_config user_settings = Ok d ->
  model_validate d = Ok new_config ->
  save_user_settings (save_user_settings self user_settings w).1.2 user_settings
    (save_user_settings self user_settings w).1.1
  = save_user_settings self user_settings w.
Proof.
  intros Hd Hc. rewrite !(save_user_settings_ok _ _ _ _ _ Hd Hc). simpl.
  unfold write. simpl. now rewrite insert_insert_eq.
Qed.

(** Every instance that construction returns has, in each field, a value of
    the field's annotated type (given that the default codec is one of the
    codecs). *)
Theorem Configuration_init_well_typed (data : strdict) (c : Configuration) :
  "avc1" ∈ VideoCodecs ->
  Configuration_init data = Ok c ->
  well_typed c.
Proof.
  intros Hin Hc f. rewrite Configuration_init_ok in Hc. specialize (Hc f).
  unfold validate_field in Hc. destruct (dict_get (Field.name f) data) as [v|].
  - now apply validate_sound in Hc.
  - injection Hc as <-. now apply default_has_type.
Qed.

(** A save keeps the instance well typed, whatever the settings are. *)
Theorem save_user_settings_keeps_well_typed
    (self : Configuration) (user_settings : pydict) (w : world) :
  "avc1" ∈ VideoCodecs ->
  well_typed self ->
  well_typed (save_user_settings self user_settings w).1.2.
Proof.
  intros Hin Hself.
  destruct (rename_keys_for_config user_settings) as [d|e] eqn:Hd.
  - destruct (model_validate d) as [c|e] eqn:Hc.
    + rewrite (save_user_settings_ok _ _ _ _ _ Hd Hc). simpl.
      intros f. rewrite Configuration_init_ok in Hc. specialize (Hc f).
      unfold validate_field in Hc. destruct (dict_get (Field.name f) d) as [v|].
      * now apply validate_sound in Hc.
      * injection Hc as <-. now apply default_has_type.
    + rewrite (save_user_settings_raise self user_settings w e)
        by (rewrite Hd; exact Hc). exact Hself.
  - rewrite (save_user_settings_raise self user_settings w e) by (now rewrite Hd).
    exact Hself.
Qed.

(** When construction fails, the error names exactly the fields whose key is
    present with a value the field refuses; a missing key never fails. *)
Theorem Configuration_init_failure (data : strdict) (e : exn) :
  Configuration_init data = Raise e ->
  exists loc,
    e = ValidationError loc
    /\ loc <> []
    /\ forall f, Field.name f ∈ loc <->
         exists v, dict_get (Field.name f) data = Some v
                   /\ validate (annotation_of f) v = None.
Proof.
  intros [-> Hne]%Configuration_init_raise.
  exists (Field.name <$> invalid_fields data). split; [reflexivity|]. split.
  - destruct (invalid_fields data); [congruence|discriminate].
  - intros f. split.
    + intros (g & Hg & Hin)%list_elem_of_fmap. apply field_name_inj in Hg as <-.
      apply elem_of_invalid_fields in Hin. unfold validate_field in Hin.
      destruct (dict_get (Field.name f) data) as [v|]; [|discriminate]. now exists v.
    + intros (v & Hv & Hnone). apply list_elem_of_fmap_2, elem_of_invalid_fields.
      unfold validate_field. now rewrite Hv.
Qed.

(** The order of the keyword arguments does not matter. *)
Theorem Configuration_init_order_irrelevant (data data' : strdict) :
  NoDup data.*1 ->
  data ≡ₚ data' ->
  Configuration_init data = Configuration_init data'.
Proof.
  intros Hnd Hp. apply Configuration_init_ext. intros f.
  now apply dict_get_permutation.
Qed.

(** ** [is_can_plugged] *)

Lemma prefix_str_exists (p : ascii -> bool) (needle hay : string) :
  String.prefix needle hay = true ->
  str_exists p needle = true -> str_exists p hay = true.
Proof.
  revert hay. induction needle as [|a needle IH]; intros hay; [discriminate 2|].
  destruct hay as [|b hay]; [discriminate|]. simpl.
  destruct (ascii_dec a b) as [->|]; [|discriminate].
  intros Hp [Hb|Hn]%orb_prop; [now rewrite Hb|].
  rewrite (IH hay Hp Hn). apply orb_true_r.
Qed.

Lemma contains_str_exists (p : ascii -> bool) (needle hay : string) :
  contains needle hay = true ->
  str_exists p needle = true -> str_exists p hay = true.
Proof.
  induction hay as [|b hay IH]; cbn [contains].
  - intros Hp Hn. now apply (prefix_str_exists p needle EmptyString).
  - intros [Hp|Hc]%orb_prop Hn.
    + now apply (prefix_str_exists p needle (String b hay)).
    + simpl. rewrite (IH Hc Hn). apply orb_true_r.
Qed.

Lemma is_upper_ascii_lower (c : ascii) : is_upper (ascii_lower c) = false.
Proof. destruct c as [[] [] [] [] [] [] [] []]; reflexivity. Qed.

Lemma lower_has_no_capital (s : string) : str_exists is_upper (lower s) = false.
Proof.
  induction s as [|c s IH]; [reflexivity|]. unfold lower in *. simpl.
  now rewrite is_upper_ascii_lower, IH.
Qed.

(** The interface is reported present exactly when the command of the
    platform exits with status 0 and its output, in lower case, lacks "does
    not exist" (Linux, macOS) or holds the interface name (Windows). *)
Theorem is_can_plugged_true_iff
    (platform : string) (run : list string -> run_outcome) (interface : string) :
  (is_can_plugged platform run interface).1 = true <->
  (platform = "linux"
   /\ exists out, run ["ip"; "link"; "show"; interface] = Completed (Some out)
                  /\ contains "does not exist" (lower out) = false)
  \/ (platform = "darwin"
      /\ exists out, run ["ifconfig"; interface] = Completed (Some out)
                     /\ contains "does not exist" (lower out) = false)
  \/ (platform = "win32"
      /\ exists out, run ["ipconfig"; "/all"] = Completed (Some out)
                     /\ contains interface (lower out) = true).
Proof.
  unfold is_can_plugged, can_probe.
  destruct (String.eqb_spec platform "linux") as [->|Hl].
  { destruct (run ["ip"; "link"; "show"; interface]) as [[out|]|rc| |] eqn:E; simpl.
    - rewrite negb_true_iff. split.
      + intros H. left. split; [reflexivity|]. now exists out.
      + intros [(_ & out' & [= <-] & H)|[(? & _)|(? & _)]]; [exact H|discriminate..].
    - split; [discriminate|].
      intros [(_ & out' & ? & _)|[(? & _)|(? & _)]]; discriminate.
    - destruct (rc =? 1)%Z; simpl; (split; [discriminate|]);
        intros [(_ & out' & ? & _)|[(? & _)|(? & _)]]; discriminate.
    - split; [discriminate|].
      intros [(_ & out' & ? & _)|[(? & _)|(? & _)]]; discriminate.
    - split; [discriminate|].
      intros [(_ & out' & ? & _)|[(? & _)|(? & _)]]; discriminate. }
  destruct (String.eqb_spec platform "darwin") as [->|Hd].
  { destruct (run ["ifconfig"; interface]) as [[out|]|rc| |] eqn:E; simpl.
    - rewrite negb_true_iff. split.
      + intros H. right. left. split; [reflexivity|]. now exists out.
      + intros [(? & _)|[(_ & out' & [= <-] & H)|(? & _)]]; [discriminate|exact H|discriminate].
    - split; [discriminate|].
      intros [(? & _)|[(_ & out' & ? & _)|(? & _)]]; discriminate.
    - destruct (rc =? 1)%Z; simpl; (split; [discriminate|]);
        intros [(? & _)|[(_ & out' & ? & _)|(? & _)]]; discriminate.
    - split; [discriminate|].
      intros [(? & _)|[(_ & out' & ? & _)|(? & _)]]; discriminate.
    - split; [discriminate|].
      intros [(? & _)|[(_ & out' & ? & _)|(? & _)]]; discriminate. }
  destruct (String.eqb_spec platform "win32") as [->|Hw].
  { destruct (run ["ipconfig"; "/all"]) as [[out|]|rc| |] eqn:E; simpl.
    - split.
      + intros H. right. right. split; [reflexivity|]. now exists out.
      + intros [(? & _)|[(? & _)|(_ & out' & [= <-] & H)]]; [discriminate..|exact H].
    - split; [discriminate|].
      intros [(? & _)|[(? & _)|(_ & out' & ? & _)]]; discriminate.
    - destruct (rc =? 1)%Z; simpl; (split; [discriminate|]);
        intros [(? & _)|[(? & _)|(_ & out' & ? & _)]]; discriminate.
    - split; [discriminate|].
      intros [(? & _)|[(? & _)|(_ & out' & ? & _)]]; discriminate.
    - split; [discriminate|].
      intros [(? & _)|[(? & _)|(_ & out' & ? & _)]]; discriminate. }
  simpl. split; [discriminate|]. intros [(? & _)|[(? & _)|(? & _)]]; congruence.
Qed.

(** On Windows the output is put in lower case before the interface name is
    looked for in it: a name with a capital letter is never found. *)
Theorem is_can_plugged_win32_capital
    (run : list string -> run_outcome) (interface : string) :
  str_exists is_upper interface = true ->
  (is_can_plugged "win32" run interface).1 = false.
Proof.
  intros Hup. unfold is_can_plugged, can_probe. simpl.
  destruct (run ["ipconfig"; "/all"]) as [[out|]|rc| |]; simpl; try reflexivity.
  - destruct (contains interface (lower out)) eqn:E; [|reflexivity].
    pose proof (contains_str_exists is_upper _ _ E Hup) as H.
    now rewrite lower_has_no_capital in H.
  - now destruct (rc =? 1)%Z.
Qed.

(** On any other platform the answer is no, with one warning, and the
    operating system does not matter. *)
Theorem is_can_plugged_unsupported_platform
    (platform : string) (run : list string -> run_outcome) (interface : string) :
  platform <> "linux" -> platform <> "darwin" -> platform <> "win32" ->
  is_can_plugged platform run interface = (false, [Unexpected_error]).
Proof.
  intros Hl Hd Hw. unfold is_can_plugged, can_probe.
  destruct (String.eqb_spec platform "linux"); [congruence|].
  destruct (String.eqb_spec platform "darwin"); [congruence|].
  destruct (String.eqb_spec platform "win32"); [congruence|reflexivity].
Qed.

(** When no command completes, the answer is no; and it comes without a
    warning only when a command exited with status 1. *)
Theorem is_can_plugged_command_fails
    (platform : string) (run : list string -> run_outcome) (interface : string) :
  (forall command stdout, run command <> Completed stdout) ->
  (is_can_plugged platform run interface).1 = false
  /\ ((is_can_plugged platform run interface).2 = [] ->
      exists command, run command = CalledProcessError 1).
Proof.
  intros Hrun. unfold is_can_plugged, can_probe.
  repeat match goal with
         | |- context [String.eqb platform ?s] => destruct (String.eqb platform s)
         | |- context [run ?c] =>
             let E := fresh "E" in
             destruct (run c) as [out|rc| |] eqn:E;
             [now destruct (Hrun _ _ E)| | |]
         end; simpl;
    try (destruct (rc =? 1)%Z eqn:Hrc; simpl;
         [apply Z.eqb_eq in Hrc as ->|]);
    split; try reflexivity; try discriminate; eauto.
Qed.

End Config.

(** ** The theorems at concrete inputs *)

(** C1 at [{"episode_format": "xml"}]: the model refuses the value and the
    save changes nothing. *)
Lemma save_user_settings_refused_witness :
  files (save_user_settings avc1_only user_home defaults episode_format_xml
           empty_world).1.1 = files empty_world
  /\ (save_user_settings avc1_only user_home defaults episode_format_xml
        empty_world).1.2 = defaults
  /\ (save_user_settings avc1_only user_home defaults episode_format_xml
        empty_world).2 = Ok ().
Proof.
  exact (proj2 (save_user_settings_refused avc1_only user_home defaults
                  episode_format_xml empty_world
                  [("DEFAULT_EPISODE_FORMAT", VStr "xml")]
                  (ValidationError ["DEFAULT_EPISODE_FORMAT"])
                  eq_refl eq_refl)).
Defined.

(** C2 at [{"freq": "60"}]: the frequency is what the validator makes of the
    text. *)
Lemma save_user_settings_replaces_witness :
  validate TInt (VStr "60")
  = Some (getattr (save_user_settings avc1_only user_home defaults freq_as_text
                     empty_world).1.2 Field.DEFAULT_FREQ).
Proof.
  exact (proj1 (save_user_settings_replaces avc1_only user_home defaults
                  freq_as_text empty_world [("DEFAULT_FREQ", VStr "60")]
                  (setattr defaults Field.DEFAULT_FREQ (VInt 60))
                  eq_refl eq_refl Field.DEFAULT_FREQ)).
Defined.

(** C2, as worded, fails at [{"freq": "60"}]: the mapping validates and the
    frequency becomes the integer 60, not the supplied text. *)
Lemma save_does_not_keep_supplied_text :
  ~ exists VideoCodecs home,
      save_keeps_supplied_values VideoCodecs home defaults freq_as_text empty_world.
Proof.
  intros (codecs & home & H).
  specialize (H [("DEFAULT_FREQ", VStr "60")]
                (setattr defaults Field.DEFAULT_FREQ (VInt 60))
                eq_refl eq_refl Field.DEFAULT_FREQ).
  vm_compute in H. discriminate H.
Qed.

(** C3 at a file that holds the dump of [{"episode_format": "xml"}]. *)
Lemma from_yaml_raises_on_refused_value_witness :
  from_yaml avc1_only user_home reads_nothing reads_plain_dumps (Some "/tmp/config.yaml") world_with_xml
  = (world_with_xml, Raise (ValidationError ["DEFAULT_EPISODE_FORMAT"])).
Proof.
  exact (from_yaml_raises_on_refused_value avc1_only user_home reads_nothing reads_plain_dumps
           "/tmp/config.yaml" world_with_xml (Dump (VDict episode_format_xml))
           eq_refl eq_refl).
Defined.

(** C4 at [{"freq": 60}]: the file holds the dump of [{"DEFAULT_FREQ": 60}]. *)
Lemma save_user_settings_writes_normalized_witness :
  files (save_user_settings avc1_only user_home defaults freq_60 empty_world).1.1
    !! YAML_CONFIG_PATH user_home
  = Some (Dump (dict_value [("DEFAULT_FREQ", VInt 60)])).
Proof.
  exact (proj1 (proj2 (save_user_settings_writes_normalized avc1_only user_home
                         defaults freq_60 empty_world [("DEFAULT_FREQ", VInt 60)]
                         (setattr defaults Field.DEFAULT_FREQ (VInt 60))
                         eq_refl eq_refl))).
Defined.

(** C4, as worded, fails at [{"freq": 60}]: the file does not hold the
    mapping under the caller's bare key. *)
Lemma save_does_not_write_original_mapping :
  ~ exists VideoCodecs home,
      save_writes_original_mapping VideoCodecs home defaults freq_60 empty_world.
Proof.
  intros (codecs & home & H).
  specialize (H [("DEFAULT_FREQ", VInt 60)]
                (setattr defaults Field.DEFAULT_FREQ (VInt 60)) eq_refl eq_refl).
  rewrite (save_user_settings_ok codecs home defaults freq_60 empty_world
             [("DEFAULT_FREQ", VInt 60)]
             (setattr defaults Field.DEFAULT_FREQ (VInt 60)) eq_refl eq_refl) in H.
  simpl in H. rewrite lookup_insert_eq in H. discriminate H.
Qed.

(** C5 at [{"DEFAULT_FREQ": "abc"}]: the text is no integer and construction
    fails naming the field. *)
Lemma int_field_accepts_any_int_witness :
  exists loc,
    Configuration_init avc1_only [("DEFAULT_FREQ", VStr "abc")]
    = Raise (ValidationError loc)
    /\ "DEFAULT_FREQ" ∈ loc.
Proof.
  exact (proj2 (proj1 (int_field_accepts_any_int avc1_only Field.DEFAULT_FREQ
                         [("DEFAULT_FREQ", VStr "abc")] (VStr "abc")
                         eq_refl eq_refl))
           eq_refl).
Defined.

(** C5, as worded, fails at [{"DEFAULT_FREQ": 0}]: construction succeeds. *)
Lemma zero_frequency_accepted :
  ~ exists VideoCodecs,
      refuses_below VideoCodecs Field.DEFAULT_FREQ 1 [("DEFAULT_FREQ", VInt 0)].
Proof.
  intros (codecs & H).
  destruct (H 0%Z eq_refl eq_refl) as (loc & Hraise & _).
  vm_compute in Hraise. discriminate Hraise.
Qed.

(** C6, as worded, fails at [{"DEFAULT_freq": 60}]: the key is kept in lower
    case and no key [DEFAULT_FREQ] exists afterwards. *)
Lemma prefixed_key_not_uppercased :
  ~ prefixed_keys_uppercased [("DEFAULT_freq", VInt 60)].
Proof.
  intros H.
  destruct (H "DEFAULT_freq" (VInt 60)) as (d & Hd & Hget);
    [apply list_elem_of_here|reflexivity|].
  vm_compute in Hd. injection Hd as <-. vm_compute in Hget. discriminate Hget.
Qed.

(** C7 at the bare key [enable_can]: it becomes [DEFAULT_ENABLE_CAN], which
    is not the field [ENABLE_CAN]. *)
Lemma fields_outside_recording_defaults_unreachable_witness :
  dict_get "ENABLE_CAN" [("DEFAULT_ENABLE_CAN", VBool true)] = None.
Proof.
  exact (proj1 (fields_outside_recording_defaults_unreachable avc1_only user_home
                  reads_nothing reads_plain_dumps Field.ENABLE_CAN eq_refl)
           [(VStr "enable_can", VBool true)]
           [("DEFAULT_ENABLE_CAN", VBool true)] eq_refl).
Defined.

(** C9 in the empty world. *)
Lemma from_yaml_creates_missing_file_witness :
  from_yaml avc1_only user_home reads_nothing reads_plain_dumps None empty_world
  = (write (YAML_CONFIG_PATH user_home) (Text EmptyString) empty_world, Ok defaults).
Proof.
  exact (proj1 (from_yaml_creates_missing_file avc1_only user_home reads_nothing reads_plain_dumps
                  None empty_world eq_refl)).
Defined.

(** C10 at [{"freq": 60}]. *)
Lemma save_then_load_witness :
  from_yaml avc1_only user_home reads_nothing reads_plain_dumps None
    (save_user_settings avc1_only user_home defaults freq_60 empty_world).1.1
  = ((save_user_settings avc1_only user_home defaults freq_60 empty_world).1.1,
     Ok (save_user_settings avc1_only user_home defaults freq_60 empty_world).1.2).
Proof.
  exact (proj1 (save_then_load avc1_only user_home reads_nothing reads_plain_dumps
                  defaults freq_60 empty_world
                  [("DEFAULT_FREQ", VInt 60)] [("DEFAULT_FREQ", VInt 60)]
                  (setattr defaults Field.DEFAULT_FREQ (VInt 60))
                  eq_refl eq_refl (Permutation_refl _) eq_refl)).
Defined.

(** C10, as worded, fails at [{"video_size": (640, 480)}]: the mapping
    validates (a tuple is accepted for a list of integers) and the instance
    takes the size 640 x 480, but the dump of the tuple cannot be read back:
    the loader logs the error and returns the default size. *)
Lemma load_after_save_loses_tuple :
  ~ exists VideoCodecs home safe_load_text,
      load_after_save_returns_saved VideoCodecs home safe_load_text
        reads_plain_dumps defaults video_size_tuple empty_world.
Proof.
  intros (codecs & home & reader & H).
  specialize (H [("DEFAULT_VIDEO_SIZE", VTuple [VInt 640; VInt 480])]
                (setattr defaults Field.DEFAULT_VIDEO_SIZE
                   (VList [VInt 640; VInt 480]))
                eq_refl eq_refl).
  rewrite (save_user_settings_ok codecs home defaults video_size_tuple empty_world
             [("DEFAULT_VIDEO_SIZE", VTuple [VInt 640; VInt 480])]
             (setattr defaults Field.DEFAULT_VIDEO_SIZE
                (VList [VInt 640; VInt 480])) eq_refl eq_refl) in H.
  unfold from_yaml in H. simpl in H. rewrite lookup_insert_eq in H.
  simpl in H. discriminate H.
Qed.

(** A malformed file in a one-file world. *)
Lemma from_yaml_malformed_file_witness :
  from_yaml avc1_only user_home rejects_everything reads_plain_dumps (Some "/tmp/config.yaml")
    world_with_text
  = (logger_error (Error_loading "malformed") world_with_text, Ok defaults).
Proof.
  exact (proj1 (from_yaml_malformed_file avc1_only user_home rejects_everything reads_plain_dumps
                  "/tmp/config.yaml" world_with_text (Text "freq: [") "malformed"
                  eq_refl eq_refl)).
Defined.

(** Two bare keys with distinct new keys. *)
Lemma rename_keys_for_config_keeps_distinct_items_witness :
  rename_keys_for_config (str_items bare_settings) = Ok two_settings.
Proof.
  apply (rename_keys_for_config_keeps_distinct_items bare_settings).
  apply (bool_decide_unpack _). reflexivity.
Defined.

(** The output for [{"freq": 60}]. *)
Lemma rename_keys_for_config_output_witness :
  NoDup [("DEFAULT_FREQ", VInt 60)].*1
  /\ Forall (fun k => startswith k "DEFAULT_" = true) [("DEFAULT_FREQ", VInt 60)].*1
  /\ length [("DEFAULT_FREQ", VInt 60)] <= length freq_60
  /\ (forall k', k' ∈ [("DEFAULT_FREQ", VInt 60)].*1
                 <-> exists k, VStr k ∈ freq_60.*1 /\ k' = renamed_key k).
Proof.
  exact (rename_keys_for_config_output freq_60 [("DEFAULT_FREQ", VInt 60)] eq_refl).
Defined.

(** The bare key [freq] comes back as it was. *)
Lemma external_key_of_renamed_key_witness :
  external_key (renamed_key "freq") = lower "freq".
Proof. exact (external_key_of_renamed_key "freq" eq_refl eq_refl eq_refl). Defined.

(** Two recording defaults, out and back. *)
Lemma rename_after_remove_default_prefix_witness :
  exists d',
    remove_default_prefix (str_items two_settings) = Ok d'
    /\ rename_keys_for_config (str_items d') = Ok two_settings.
Proof.
  apply (rename_after_remove_default_prefix two_settings).
  - apply (bool_decide_unpack _). reflexivity.
  - repeat constructor.
Defined.

(** A file that reads as nothing. *)
Lemma from_yaml_not_a_mapping_witness :
  from_yaml avc1_only user_home reads_nothing reads_plain_dumps (Some "/tmp/config.yaml")
    world_with_text
  = (world_with_text, Ok defaults).
Proof.
  refine (from_yaml_not_a_mapping avc1_only user_home reads_nothing reads_plain_dumps
            "/tmp/config.yaml" world_with_text (Text "freq: [") VNone
            eq_refl eq_refl _).
  discriminate.
Defined.

(** A file that holds the dump of [{1: 2}]. *)
Lemma from_yaml_non_str_key_witness :
  from_yaml avc1_only user_home reads_nothing reads_plain_dumps (Some "/tmp/config.yaml")
    world_with_int_key
  = (world_with_int_key, Raise (AttributeError "startswith")).
Proof.
  exact (from_yaml_non_str_key avc1_only user_home reads_nothing reads_plain_dumps
           "/tmp/config.yaml" world_with_int_key (Dump (VDict int_key)) int_key
           eq_refl eq_refl eq_refl).
Defined.

(** A file that holds the dump of [{"freq": 60}]: the frequency is 60. *)
Lemma from_yaml_single_setting_witness :
  from_yaml avc1_only user_home reads_nothing reads_plain_dumps (Some "/tmp/config.yaml")
    world_with_freq
  = (world_with_freq, Ok (setattr defaults Field.DEFAULT_FREQ (VInt 60))).
Proof.
  exact (from_yaml_single_setting avc1_only user_home reads_nothing reads_plain_dumps
           "/tmp/config.yaml" world_with_freq (Dump (VDict freq_60))
           "freq" (VInt 60) (VInt 60) Field.DEFAULT_FREQ
           eq_refl eq_refl eq_refl eq_refl).
Defined.

(** Loading twice in the empty world. *)
Lemma from_yaml_reload_witness :
  from_yaml avc1_only user_home reads_nothing reads_plain_dumps None
    (from_yaml avc1_only user_home reads_nothing reads_plain_dumps None empty_world).1
  = ((from_yaml avc1_only user_home reads_nothing reads_plain_dumps None empty_world).1, Ok defaults).
Proof.
  exact (from_yaml_reload avc1_only user_home reads_nothing reads_plain_dumps None empty_world
           eq_refl eq_refl).
Defined.

(** The key [episode_export_format] is no field once renamed (the field is
    [DEFAULT_EPISODE_FORMAT]): saving it resets the instance. *)
Lemma save_user_settings_unrecognized_keys_witness :
  save_user_settings avc1_only user_home customized export_format_xml empty_world
  = (write (YAML_CONFIG_PATH user_home)
       (Dump (dict_value [("DEFAULT_EPISODE_EXPORT_FORMAT", VStr "xml")]))
       empty_world,
     defaults, Ok ()).
Proof.
  apply (save_user_settings_unrecognized_keys avc1_only user_home customized
           export_format_xml empty_world
           [("DEFAULT_EPISODE_EXPORT_FORMAT", VStr "xml")] eq_refl).
  intros k Hk. apply list_elem_of_singleton in Hk. subst k. reflexivity.
Defined.

(** Saving [{1: 2}]. *)
Lemma save_user_settings_non_str_key_witness :
  save_user_settings avc1_only user_home customized int_key empty_world
  = (logger_error (Error_saving (AttributeError "startswith")) empty_world,
     customized, Ok ()).
Proof.
  exact (save_user_settings_non_str_key avc1_only user_home customized int_key
           empty_world eq_refl).
Defined.

(** Saving [{"freq": 60}] twice. *)
Lemma save_user_settings_idempotent_witness :
  save_user_settings avc1_only user_home
    (save_user_settings avc1_only user_home customized freq_60 empty_world).1.2
    freq_60
    (save_user_settings avc1_only user_home customized freq_60 empty_world).1.1
  = save_user_settings avc1_only user_home customized freq_60 empty_world.
Proof.
  exact (save_user_settings_idempotent avc1_only user_home customized freq_60
           empty_world [("DEFAULT_FREQ", VInt 60)]
           (setattr defaults Field.DEFAULT_FREQ (VInt 60)) eq_refl eq_refl).
Defined.

(** The frequency built from the text "60" is an integer. *)
Lemma Configuration_init_well_typed_witness :
  has_type TInt
    (getattr (setattr defaults Field.DEFAULT_FREQ (VInt 60)) Field.DEFAULT_FREQ)
  = true.
Proof.
  exact (Configuration_init_well_typed avc1_only [("DEFAULT_FREQ", VStr "60")]
           (setattr defaults Field.DEFAULT_FREQ (VInt 60))
           (list_elem_of_here _ _) eq_refl Field.DEFAULT_FREQ).
Defined.

(** The dataset name after saving [{"freq": 60}] over the defaults is text. *)
Lemma save_user_settings_keeps_well_typed_witness :
  has_type TStr
    (getattr (save_user_settings avc1_only user_home defaults freq_60
                empty_world).1.2 Field.DEFAULT_DATASET_NAME)
  = true.
Proof.
  refine (save_user_settings_keeps_well_typed avc1_only user_home defaults freq_60
            empty_world (list_elem_of_here _ _) _ Field.DEFAULT_DATASET_NAME).
  intros f. destruct f; reflexivity.
Defined.

(** A frequency that is no number and a format that is not listed. *)
Lemma Configuration_init_failure_witness :
  exists loc,
    ValidationError ["DEFAULT_FREQ"; "DEFAULT_EPISODE_FORMAT"] = ValidationError loc
    /\ loc <> []
    /\ forall f, Field.name f ∈ loc <->
         exists v,
           dict_get (Field.name f)
             [("DEFAULT_EPISODE_FORMAT", VStr "xml"); ("DEFAULT_FREQ", VStr "abc")]
           = Some v
           /\ validate (annotation_of avc1_only f) v = None.
Proof.
  exact (Configuration_init_failure avc1_only
           [("DEFAULT_EPISODE_FORMAT", VStr "xml"); ("DEFAULT_FREQ", VStr "abc")]
           (ValidationError ["DEFAULT_FREQ"; "DEFAULT_EPISODE_FORMAT"]) eq_refl).
Defined.

(** Two settings in either order. *)
Lemma Configuration_init_order_irrelevant_witness :
  Configuration_init avc1_only two_settings
  = Configuration_init avc1_only two_settings_swapped.
Proof.
  apply (Configuration_init_order_irrelevant avc1_only two_settings
           two_settings_swapped).
  - apply (bool_decide_unpack _). reflexivity.
  - apply Permutation_swap.
Defined.

(** The interface CAN0 on Windows, whatever the output. *)
Lemma is_can_plugged_win32_capital_witness :
  (is_can_plugged "win32" (prints "Adapter CAN0") "CAN0").1 = false.
Proof.
  exact (is_can_plugged_win32_capital (prints "Adapter CAN0") "CAN0" eq_refl).
Defined.

(** FreeBSD is not supported. *)
Lemma is_can_plugged_unsupported_platform_witness :
  is_can_plugged "freebsd" nothing_installed "can0" = (false, [Unexpected_error]).
Proof.
  apply (is_can_plugged_unsupported_platform "freebsd" nothing_installed "can0");
    discriminate.
Defined.

(** Linux without the [ip] command. *)
Lemma is_can_plugged_command_fails_witness :
  (is_can_plugged "linux" nothing_installed "can0").1 = false.
Proof.
  refine (proj1 (is_can_plugged_command_fails "linux" nothing_installed "can0" _)).
  discriminate.
Defined.

(** Saving [{"freq": 60}] leaves a file elsewhere alone. *)
Lemma save_user_settings_frame_witness :
  files (save_user_settings avc1_only user_home defaults freq_60
           world_with_text).1.1 !! "/tmp/config.yaml"
  = files world_with_text !! "/tmp/config.yaml".
Proof.
  apply (save_user_settings_frame avc1_only user_home defaults freq_60
           world_with_text "/tmp/config.yaml").
  discriminate.
Defined.
